(** * G2 review collector (mains.py): a shallow embedding and its properties

    The program prompts for company slugs, a token and a date window,
    validates the window against the current date, pages through the
    review API for every company, keeps the reviews of the window and
    writes one file per company.

    Python values are modelled as follows.
    - [str] is [string]: a character of the model is a code point below
      256, so the strings of the model are the Python strings of such code
      points.  The three symbols of the fixed messages lie above that and
      stand as their UTF-8 bytes; they are only printed.
    - [int] is [Z].
    - decoded JSON is the inductive [json]; a [dict] is an association
      list with distinct keys, looked up from the front.
    - [datetime.date] and [datetime.datetime] are records of their fields;
      [tzinfo] is the UTC offset in microseconds, [None] for a naive value.
    - exceptions, printing, prompting, the network and the file system
      (which may refuse a directory, a file or a write) are threaded
      through the monad [M]: a computation maps a state to the
      events it emitted, the state it left and a value, an exception, or
      the exhaustion of the fuel that bounds [while True]. *)

From Stdlib Require Import ZArith List String Ascii Bool Lia DecimalString Sorted.
Import ListNotations.
Open Scope string_scope.
Open Scope Z_scope.
Open Scope list_scope.

(* ------------------------------------------------------------------ *)
(** ** Strings *)
(* ------------------------------------------------------------------ *)

Module PyStr.

(** [str.isspace] on the code points below 256: U+0009 to U+000D, U+001C
    to U+0020, U+0085 and U+00A0.  These are the characters [strip()]
    removes. *)
Definition is_space (c : ascii) : bool :=
  let n := nat_of_ascii c in
  ((9 <=? n)%nat && (n <=? 13)%nat) || ((28 <=? n)%nat && (n <=? 32)%nat)
  || (n =? 133)%nat || (n =? 160)%nat.

Definition is_comma (c : ascii) : bool := Ascii.eqb c ","%char.

Definition is_empty (s : string) : bool :=
  match s with EmptyString => true | String _ _ => false end.

Fixpoint lstrip (s : string) : string :=
  match s with
  | EmptyString => EmptyString
  | String c s' => if is_space c then lstrip s' else s
  end.

Fixpoint rstrip (s : string) : string :=
  match s with
  | EmptyString => EmptyString
  | String c s' =>
      let r := rstrip s' in
      if is_space c && is_empty r then EmptyString else String c r
  end.

(** [s.strip()] *)
Definition strip (s : string) : string := rstrip (lstrip s).

(** [s.split(",")]: never an empty list, the empty string splits into one
    empty piece. *)
Fixpoint split_comma (s : string) : list string :=
  match s with
  | EmptyString => [EmptyString]
  | String c s' =>
      if is_comma c then EmptyString :: split_comma s'
      else match split_comma s' with
           | h :: t => String c h :: t
           | [] => [String c EmptyString]
           end
  end.

Fixpoint all_chars (p : ascii -> bool) (s : string) : bool :=
  match s with
  | EmptyString => true
  | String c s' => p c && all_chars p s'
  end.

Definition nl : string := String (ascii_of_nat 10) EmptyString.

(** [str(n)] for an [int]. *)
Definition of_Z (n : Z) : string := NilZero.string_of_int (Z.to_int n).

Fixpoint zeros (n : nat) : string :=
  match n with O => EmptyString | S n' => String "0"%char (zeros n') end.

(** ["%0<w>d" % n] for [0 <= n]. *)
Definition zfill (w : nat) (n : Z) : string :=
  let s := of_Z n in (zeros (w - String.length s) ++ s)%string.

(** [x in s] on strings. *)
Definition contains (s x : string) : Prop :=
  exists pre post, s = (pre ++ x ++ post)%string.

End PyStr.

(* ------------------------------------------------------------------ *)
(** ** Sequences: [seq[:n]] *)
(* ------------------------------------------------------------------ *)

Definition slice_to {A : Type} (n : Z) (l : list A) : list A :=
  if 0 <=? n then firstn (Z.to_nat n) l
  else firstn (Z.to_nat (Z.of_nat (List.length l) + n)) l.

(* ------------------------------------------------------------------ *)
(** ** Decoded JSON *)
(* ------------------------------------------------------------------ *)

#[warnings="-register-all"]
Inductive json : Type :=
| JNull
| JBool (b : bool)
| JInt (z : Z)
| JFloat (repr : string)
| JStr (s : string)
| JList (l : list json)
| JDict (kv : list (string * json)).

Fixpoint assoc (k : string) (kv : list (string * json)) : option json :=
  match kv with
  | [] => None
  | (k', v) :: kv' => if String.eqb k k' then Some v else assoc k kv'
  end.

(** [d.get(k, default)] on a value known to be a dict. *)
Definition dict_get (kv : list (string * json)) (k : string) (default : json) : json :=
  match assoc k kv with Some v => v | None => default end.

(** The elements a [for] loop visits: those of a list, the characters of a
    string.  Other values are not iterated by the program. *)
Definition items (v : json) : list json :=
  match v with
  | JList l => l
  | JStr s => map (fun c => JStr (String c EmptyString)) (list_ascii_of_string s)
  | _ => []
  end.

(** [len(v)] *)
Definition len (v : json) : Z := Z.of_nat (List.length (items v)).

(** [not v] for a list or a string. *)
Definition falsy (v : json) : bool :=
  match items v with [] => true | _ :: _ => false end.

(* ------------------------------------------------------------------ *)
(** ** Dates and date-times *)
(* ------------------------------------------------------------------ *)

Fixpoint lex_compare (a b : list Z) : comparison :=
  match a, b with
  | [], [] => Eq
  | [], _ :: _ => Lt
  | _ :: _, [] => Gt
  | x :: a', y :: b' =>
      match x ?= y with
      | Eq => lex_compare a' b'
      | c => c
      end
  end.

Definition is_lt (c : comparison) : bool :=
  match c with Lt => true | _ => false end.

Definition is_le (c : comparison) : bool :=
  match c with Gt => false | _ => true end.

Record date := mkDate { d_year : Z; d_month : Z; d_day : Z }.

Record datetime := mkDatetime {
  year : Z; month : Z; day : Z;
  hour : Z; minute : Z; second : Z; microsecond : Z;
  tzinfo : option Z
}.

Module Date.

Definition key (d : date) : list Z := [d_year d; d_month d; d_day d].

(** [a < b] and [a > b] on [date]. *)
Definition lt (a b : date) : bool := is_lt (lex_compare (key a) (key b)).
Definition gt (a b : date) : bool := lt b a.

(** [d.isoformat()], also [str(d)]. *)
Definition isoformat (d : date) : string :=
  (PyStr.zfill 4 (d_year d) ++ "-" ++ PyStr.zfill 2 (d_month d) ++ "-"
     ++ PyStr.zfill 2 (d_day d))%string.

End Date.

Module Datetime.

Definition key (t : datetime) : list Z :=
  [year t; month t; day t; hour t; minute t; second t; microsecond t].

(** [t.date()] *)
Definition date_of (t : datetime) : date := mkDate (year t) (month t) (day t).

(** [t.strftime("%Y-%m-%d")]: the C library writes the year without
    padding, so a year below 1000 has fewer than four digits. *)
Definition strftime_ymd (t : datetime) : string :=
  (PyStr.of_Z (year t) ++ "-" ++ PyStr.zfill 2 (month t) ++ "-"
     ++ PyStr.zfill 2 (day t))%string.

Definition is_leap (y : Z) : bool :=
  (y mod 4 =? 0) && (negb (y mod 100 =? 0) || (y mod 400 =? 0)).

Definition days_before_year (y : Z) : Z :=
  let p := y - 1 in p * 365 + p / 4 - p / 100 + p / 400.

Definition days_before_month (y m : Z) : Z :=
  nth (Z.to_nat m) [0; 0; 31; 59; 90; 120; 151; 181; 212; 243; 273; 304; 334] 0
  + (if (2 <? m) && is_leap y then 1 else 0).

(** Proleptic Gregorian ordinal, day 1 is 0001-01-01. *)
Definition toordinal (t : datetime) : Z :=
  days_before_year (year t) + days_before_month (year t) (month t) + day t.

(** Microseconds of [t - offset] since the start of day 0. *)
Definition utc_micros (t : datetime) (offset : Z) : Z :=
  (((toordinal t * 24 + hour t) * 60 + minute t) * 60 + second t) * 1000000
  + microsecond t - offset.

(** The three-way comparison behind [<] and [<=]: field by field when both
    are naive or carry equal offsets, on the UTC instants when both are
    aware with different offsets, and [None] (a [TypeError]) when exactly
    one of them is aware. *)
Definition cmp (a b : datetime) : option comparison :=
  match tzinfo a, tzinfo b with
  | None, None => Some (lex_compare (key a) (key b))
  | Some oa, Some ob =>
      if oa =? ob then Some (lex_compare (key a) (key b))
      else Some (utc_micros a oa ?= utc_micros b ob)
  | _, _ => None
  end.

Definition lt (a b : datetime) : option bool := option_map is_lt (cmp a b).
Definition le (a b : datetime) : option bool := option_map is_le (cmp a b).

Definition naive (t : datetime) : Prop := tzinfo t = None.
Definition aware (t : datetime) : Prop := tzinfo t <> None.

(** [datetime.combine(d, time.min)] *)
Definition midnight (d : date) : datetime :=
  mkDatetime (d_year d) (d_month d) (d_day d) 0 0 0 0 None.

End Datetime.

Arguments Date.key : simpl never.
Arguments Datetime.key : simpl never.

(* ------------------------------------------------------------------ *)
(** ** Effects *)
(* ------------------------------------------------------------------ *)

Inductive exn : Type :=
| ValueError        (* a date string that does not parse *)
| TypeError         (* naive against aware, or a value that cannot be sliced *)
| AttributeError    (* [.get] on a value that is not a dict *)
| EOFError          (* [input()] at the end of the input *)
| JSONDecodeError   (* [response.json()] on a body that is not JSON *)
| RequestException  (* [requests.get] without a response *)
| OSError.          (* a directory, a file or a write the system refuses *)

Inductive result (A : Type) : Type :=
| Val (a : A)
| Raised (e : exn)
| OutOfFuel.

Arguments Val {A} a.
Arguments Raised {A} e.
Arguments OutOfFuel {A}.

(** The GET request: the URL and the three query parameters. *)
Record request := mkRequest {
  url : string;
  param_id : string;
  param_auth_token : string;
  param_offset : Z
}.

(** The response object: [body_json] is what [response.json()] returns,
    [None] when it raises. *)
Record response := mkResponse {
  status_code : Z;
  text : string;
  body_json : option json
}.

(** The dict appended for a kept review. *)
Record review := mkReview {
  r_source : string;
  r_company : string;
  r_title : json;
  r_review : json;
  r_reviewer : json;
  r_rating : json;
  r_date : string
}.

Inductive event : Type :=
| EvPrompt (s : string)                        (* the prompt of [input] *)
| EvPrint (s : string)                         (* [print] *)
| EvRequest (q : request)                      (* [requests.get] *)
| EvMakedirs (path : string)                   (* [os.makedirs(.., exist_ok=True)] *)
| EvWrite (path : string) (content : list review) (* [json.dump] into the file *)
| EvOpen (path : string).                      (* [open(path, "w")]: created or emptied *)

(** What the program takes from outside: the remote API, a state machine
    over [World] that answers a request or fails to ([None]); the two
    library parsers, [None] where they raise; and the file system, whose
    three operations say whether they succeeded ([false] where they
    raise). *)
Class Platform : Type := {
  World : Type;
  http_get : World -> request -> World * option response;
  isoparse : string -> option datetime;
  fromisoformat : string -> option datetime;
  makedirs : World -> string -> World * bool;
  open_write : World -> string -> World * bool;
  dump : World -> string -> list review -> World * bool
}.

Section Program.

Context {P : Platform}.

Record state := mkState { world : World; stdin : list string }.

Record outcome (A : Type) := mkOutcome {
  trace : list event;
  final : state;
  res : result A
}.

Arguments mkOutcome {A} trace final res.
Arguments trace {A} o.
Arguments final {A} o.
Arguments res {A} o.

Definition M (A : Type) : Type := state -> outcome A.

Definition ret {A} (a : A) : M A := fun st => mkOutcome [] st (Val a).

Definition raise {A} (e : exn) : M A := fun st => mkOutcome [] st (Raised e).

Definition diverge {A} : M A := fun st => mkOutcome [] st OutOfFuel.

Definition bind {A B} (m : M A) (f : A -> M B) : M B :=
  fun st =>
    let o := m st in
    match res o with
    | Val a =>
        let o' := f a (final o) in
        mkOutcome (trace o ++ trace o') (final o') (res o')
    | Raised e => mkOutcome (trace o) (final o) (Raised e)
    | OutOfFuel => mkOutcome (trace o) (final o) OutOfFuel
    end.

Notation "x <- c1 ;; c2" := (bind c1 (fun x => c2))
  (at level 61, c1 at next level, right associativity).
Notation "c1 ;; c2" := (bind c1 (fun _ => c2))
  (at level 61, right associativity).

(** [print(s)] *)
Definition print (s : string) : M unit :=
  fun st => mkOutcome [EvPrint s] st (Val tt).

(** [input(prompt)] *)
Definition input (prompt : string) : M string :=
  fun st =>
    match stdin st with
    | [] => mkOutcome [EvPrompt prompt] st (Raised EOFError)
    | line :: rest =>
        mkOutcome [EvPrompt prompt] (mkState (world st) rest) (Val line)
    end.

(** [requests.get(url, params=params)] *)
Definition requests_get (q : request) : M response :=
  fun st =>
    let (w, r) := http_get (world st) q in
    mkOutcome [EvRequest q] (mkState w (stdin st))
              (match r with Some resp => Val resp | None => Raised RequestException end).

(** [response.json()] *)
Definition response_json (r : response) : M json :=
  match body_json r with
  | Some v => ret v
  | None => raise JSONDecodeError
  end.

(** [v.get(k, default)] *)
Definition get_method (v : json) (k : string) (default : json) : M json :=
  match v with
  | JDict kv => ret (dict_get kv k default)
  | _ => raise AttributeError
  end.

(** [v[:n]] *)
Definition slice (v : json) (n : Z) : M json :=
  match v with
  | JList l => ret (JList (slice_to n l))
  | JStr s =>
      ret (JStr (string_of_list_ascii (slice_to n (list_ascii_of_string s))))
  | _ => raise TypeError
  end.

(** [datetime.fromisoformat(s)] *)
Definition datetime_fromisoformat (s : string) : M datetime :=
  match fromisoformat s with
  | Some t => ret t
  | None => raise ValueError
  end.

(* ---------------------------------------------------------------- *)
(** ** fetch_g2_reviews *)
(* ---------------------------------------------------------------- *)

Definition api_url : string := "https://wextractor.com/api/v1/reviews/g2".

Definition default_batch_size : Z := 50.

Definition api_error_message (company : string) (r : response) : string :=
  ("API Error for " ++ company ++ ": " ++ PyStr.of_Z (status_code r) ++ " "
     ++ text r)%string.

Definition fetch_g2_reviews (company auth_token : string)
           (offset batch_size : Z) : M json :=
  let params := mkRequest api_url company auth_token offset in
  response <- requests_get params ;;
  if negb (status_code response =? 200) then
    print (api_error_message company response) ;;
    ret (JList [])
  else
    data <- response_json response ;;
    reviews <- get_method data "reviews" (JList []) ;;
    slice reviews batch_size.

(* ---------------------------------------------------------------- *)
(** ** fetch_reviews_in_date_range *)
(* ---------------------------------------------------------------- *)

(** The guarded statement, [isoparse] of [r.get("datetime", empty)]:
    [None] whenever anything in it raises, which the bare [except] turns
    into [continue]. *)
Definition try_isoparse (r : json) : option datetime :=
  match r with
  | JDict kv =>
      match dict_get kv "datetime" (JStr EmptyString) with
      | JStr s => isoparse s
      | _ => None
      end
  | _ => None
  end.

(** [r.get(k, empty)] once [r] is known to be a dict. *)
Definition field (r : json) (k : string) : json :=
  match r with
  | JDict kv => dict_get kv k (JStr EmptyString)
  | _ => JStr EmptyString
  end.

Definition normalize (company : string) (r : json) (review_date : datetime)
  : review :=
  {| r_source := "g2";
     r_company := company;
     r_title := field r "title";
     r_review := field r "text";
     r_reviewer := field r "reviewer";
     r_rating := field r "rating";
     r_date := Datetime.strftime_ymd review_date |}.

(** How the body of the [for] loop leaves: on to the next review, out of
    the function with [return all_reviews], or out with an exception. *)
Inductive flow : Type :=
| Next (all_reviews : list review)
| Return (all_reviews : list review)
| Throw (e : exn).

Definition for_body (company : string) (start_date end_date : datetime)
           (all_reviews : list review) (r : json) : flow :=
  match try_isoparse r with
  | None => Next all_reviews
  | Some review_date =>
      match Datetime.lt review_date start_date with
      | None => Throw TypeError
      | Some true => Return all_reviews
      | Some false =>
          match Datetime.le start_date review_date with
          | None => Throw TypeError
          | Some false => Next all_reviews
          | Some true =>
              match Datetime.le review_date end_date with
              | None => Throw TypeError
              | Some false => Next all_reviews
              | Some true =>
                  Next (all_reviews ++ [normalize company r review_date])
              end
          end
      end
  end.

Fixpoint for_reviews (company : string) (start_date end_date : datetime)
         (reviews : list json) (all_reviews : list review) : flow :=
  match reviews with
  | [] => Next all_reviews
  | r :: rest =>
      match for_body company start_date end_date all_reviews r with
      | Next acc => for_reviews company start_date end_date rest acc
      | out => out
      end
  end.

(** The [while True] loop, at most [fuel] pages. *)
Fixpoint while_true (fuel : nat) (company auth_token : string)
         (start_date end_date : datetime)
         (all_reviews : list review) (offset : Z) : M (list review) :=
  match fuel with
  | O => diverge
  | S fuel' =>
      reviews <- fetch_g2_reviews company auth_token offset default_batch_size ;;
      if falsy reviews then ret all_reviews
      else
        match for_reviews company start_date end_date (items reviews) all_reviews with
        | Return acc => ret acc
        | Throw e => raise e
        | Next acc =>
            while_true fuel' company auth_token start_date end_date
                       acc (offset + len reviews)
        end
  end.

Definition fetching_message (company : string) (start_date end_date : datetime)
  : string :=
  (PyStr.nl ++ "Fetching reviews for " ++ company ++ " from "
     ++ Date.isoformat (Datetime.date_of start_date) ++ " to "
     ++ Date.isoformat (Datetime.date_of end_date) ++ "...")%string.

Definition fetch_reviews_in_date_range (fuel : nat)
           (company auth_token start_date_str end_date_str : string)
  : M (list review) :=
  start_date <- datetime_fromisoformat start_date_str ;;
  end_date <- datetime_fromisoformat end_date_str ;;
  print (fetching_message company start_date end_date) ;;
  while_true fuel company auth_token start_date end_date [] 0.

(* ---------------------------------------------------------------- *)
(** ** save_reviews *)
(* ---------------------------------------------------------------- *)

(** [os.makedirs(path, exist_ok=True)] *)
Definition os_makedirs (path : string) : M unit :=
  fun st =>
    let (w, ok) := makedirs (world st) path in
    mkOutcome [EvMakedirs path] (mkState w (stdin st))
              (if ok then Val tt else Raised OSError).

(** [open(path, "w", encoding="utf-8")]: the file exists and is empty once
    it has succeeded. *)
Definition open_w (path : string) : M unit :=
  fun st =>
    let (w, ok) := open_write (world st) path in
    if ok then mkOutcome [EvOpen path] (mkState w (stdin st)) (Val tt)
    else mkOutcome [] (mkState w (stdin st)) (Raised OSError).

(** [json.dump(reviews, f, indent=4, ensure_ascii=False)] up to the end of
    the [with] block: the file holds the list once it has succeeded. *)
Definition json_dump (path : string) (reviews : list review) : M unit :=
  fun st =>
    let (w, ok) := dump (world st) path reviews in
    if ok then mkOutcome [EvWrite path reviews] (mkState w (stdin st)) (Val tt)
    else mkOutcome [] (mkState w (stdin st)) (Raised OSError).

Definition output_file (company : string) : string :=
  ("output/" ++ company ++ "_g2_reviews.json")%string.

Definition saved_message (company : string) (reviews : list review) : string :=
  ("Saved " ++ PyStr.of_Z (Z.of_nat (List.length reviews)) ++ " reviews to "
     ++ output_file company)%string.

Definition save_reviews (company : string) (reviews : list review) : M unit :=
  os_makedirs "output" ;;
  let output_file := output_file company in
  open_w output_file ;;
  json_dump output_file reviews ;;
  print (saved_message company reviews).

(* ---------------------------------------------------------------- *)
(** ** main *)
(* ---------------------------------------------------------------- *)

Definition prompt_companies : string :=
  "Enter G2 company slugs separated by comma (e.g., jira, notion): ".
Definition prompt_token : string := "Enter your Wextractor auth token: ".
Definition prompt_start : string := "Enter start date (YYYY-MM-DD): ".
Definition prompt_end : string := "Enter end date (YYYY-MM-DD): ".

Definition msg_future_start : string := "❌ Start date cannot be in the future.".
Definition msg_future_end : string :=
  "⚠ End date is in the future. Adjusting to today.".
Definition msg_inverted : string := "❌ Start date must be before end date.".
Definition msg_done : string := (PyStr.nl ++ "✅ Done!")%string.

Definition no_reviews_message (company : string) : string :=
  ("No reviews found for " ++ company ++ " in this date range.")%string.

(** [[c.strip() for c in companies_input.split(",") if c.strip()]] *)
Definition parse_companies (companies_input : string) : list string :=
  map PyStr.strip
      (filter (fun c => negb (PyStr.is_empty (PyStr.strip c)))
              (PyStr.split_comma companies_input)).

Definition is_nil {A} (l : list A) : bool :=
  match l with [] => true | _ :: _ => false end.

(** The [for company in companies] loop. *)
Fixpoint for_companies (fuel : nat) (auth_token start_str end_str : string)
         (companies : list string) : M unit :=
  match companies with
  | [] => ret tt
  | company :: rest =>
      reviews <- fetch_reviews_in_date_range fuel company auth_token
                                             start_str end_str ;;
      (if is_nil reviews then print (no_reviews_message company)
       else save_reviews company reviews) ;;
      for_companies fuel auth_token start_str end_str rest
  end.

(** [main()], run on the day [today]; every [while True] loop gets [fuel]
    pages. *)
Definition main (today : date) (fuel : nat) : M unit :=
  companies_input <- input prompt_companies ;;
  let companies := parse_companies companies_input in
  auth_token_line <- input prompt_token ;;
  let auth_token := PyStr.strip auth_token_line in
  start_line <- input prompt_start ;;
  let start_date_input := PyStr.strip start_line in
  end_line <- input prompt_end ;;
  let end_date_input := PyStr.strip end_line in
  start_dt <- datetime_fromisoformat start_date_input ;;
  let start_date := Datetime.date_of start_dt in
  end_dt <- datetime_fromisoformat end_date_input ;;
  let end_date := Datetime.date_of end_dt in
  if Date.gt start_date today then print msg_future_start
  else
    end_date <- (if Date.gt end_date today
                 then print msg_future_end ;; ret today
                 else ret end_date) ;;
    if Date.gt start_date end_date then print msg_inverted
    else
      for_companies fuel auth_token (Date.isoformat start_date)
                    (Date.isoformat end_date) companies ;;
      print msg_done.

End Program.

Arguments mkOutcome {P A} trace final res.
Arguments trace {P A} o.
Arguments final {P A} o.
Arguments res {P A} o.

(* ------------------------------------------------------------------ *)
(** ** A reference platform

    A stateless server given by a function of the request, and one parser
    for both library functions.  The parser reads the extended ISO-8601
    forms [YYYY-MM-DD] and [YYYY-MM-DDTHH:MM:SS], the latter optionally
    followed by [Z] or [+HH:MM] / [-HH:MM]; on these strings [isoparse] and
    [datetime.fromisoformat] agree with it.  The file system makes the
    directory and writes what it is given, and opens every file but one
    whose name holds a slash or a NUL. *)
(* ------------------------------------------------------------------ *)

Module Reference.

Definition digit (c : ascii) : option Z :=
  let n := nat_of_ascii c in
  if ((48 <=? n)%nat && (n <=? 57)%nat)%bool then Some (Z.of_nat n - 48) else None.

Fixpoint number (cs : list ascii) (acc : Z) : option Z :=
  match cs with
  | [] => Some acc
  | c :: cs' =>
      match digit c with
      | Some d => number cs' (acc * 10 + d)
      | None => None
      end
  end.

Definition days_in_month (y m : Z) : Z :=
  if m =? 2 then (if Datetime.is_leap y then 29 else 28)
  else if (m =? 4) || (m =? 6) || (m =? 9) || (m =? 11) then 30
  else 31.

Definition parse_ymd (y1 y2 y3 y4 m1 m2 d1 d2 : ascii) : option date :=
  match number [y1; y2; y3; y4] 0, number [m1; m2] 0, number [d1; d2] 0 with
  | Some y, Some m, Some d =>
      if (1 <=? y) && (1 <=? m) && (m <=? 12) && (1 <=? d)
         && (d <=? days_in_month y m)
      then Some (mkDate y m d) else None
  | _, _, _ => None
  end.

Definition parse_hms (h1 h2 m1 m2 s1 s2 : ascii) : option (Z * Z * Z) :=
  match number [h1; h2] 0, number [m1; m2] 0, number [s1; s2] 0 with
  | Some h, Some m, Some s =>
      if (h <? 24) && (m <? 60) && (s <? 60) then Some (h, m, s) else None
  | _, _, _ => None
  end.

(** The UTC offset in microseconds: [Some None] for no suffix. *)
Definition parse_tz (cs : list ascii) : option (option Z) :=
  match cs with
  | [] => Some None
  | ["Z"%char] => Some (Some 0)
  | [sign; h1; h2; ":"%char; m1; m2] =>
      match number [h1; h2] 0, number [m1; m2] 0 with
      | Some h, Some m =>
          let off := (h * 60 + m) * 60 * 1000000 in
          if negb ((h <? 24) && (m <? 60)) then None
          else if Ascii.eqb sign "+"%char then Some (Some off)
          else if Ascii.eqb sign "-"%char then Some (Some (- off))
          else None
      | _, _ => None
      end
  | _ => None
  end.

Definition parse_iso (s : string) : option datetime :=
  match list_ascii_of_string s with
  | y1 :: y2 :: y3 :: y4 :: "-"%char :: m1 :: m2 :: "-"%char :: d1 :: d2 :: rest =>
      match parse_ymd y1 y2 y3 y4 m1 m2 d1 d2 with
      | None => None
      | Some d =>
          match rest with
          | [] => Some (Datetime.midnight d)
          | "T"%char :: h1 :: h2 :: ":"%char :: n1 :: n2 :: ":"%char :: s1 :: s2 :: tz =>
              match parse_hms h1 h2 n1 n2 s1 s2, parse_tz tz with
              | Some (h, m, sec), Some off =>
                  Some (mkDatetime (d_year d) (d_month d) (d_day d) h m sec 0 off)
              | _, _ => None
              end
          | _ => None
          end
      end
  | _ => None
  end.

(** A file name the system refuses: one with a slash or a NUL in it, below
    the [output/] directory. *)
Definition refused_char (c : ascii) : bool :=
  Ascii.eqb c "/"%char || Ascii.eqb c (ascii_of_nat 0).

Definition file_name (path : string) : string :=
  String.substring 7 (String.length path - 7) path.

Definition can_open (path : string) : bool :=
  PyStr.all_chars (fun c => negb (refused_char c)) (file_name path).

Definition platform (server : request -> response) : Platform :=
  {| World := unit;
     http_get := fun w q => (w, Some (server q));
     isoparse := parse_iso;
     fromisoformat := parse_iso;
     makedirs := fun w _ => (w, true);
     open_write := fun w path => (w, can_open path);
     dump := fun w _ _ => (w, true) |}.

Definition ok (v : json) : response := mkResponse 200 EmptyString (Some v).

(** A server holding [all] reviews that sends [page_size] of them from the
    requested offset on. *)
Definition paged (all : list json) (page_size : nat) (q : request) : response :=
  ok (JDict [("reviews",
              JList (firstn page_size (skipn (Z.to_nat (param_offset q)) all)))]).

Definition raw_review (when title : string) : json :=
  JDict [("datetime", JStr when); ("title", JStr title); ("text", JStr EmptyString);
         ("reviewer", JStr EmptyString); ("rating", JInt 5)].

(** The state a run starts in, with the lines the user will type. *)
Definition start (server : request -> response) (lines : list string)
  : @state (platform server) := @mkState (platform server) tt lines.

End Reference.

(* ------------------------------------------------------------------ *)
(** ** Derived notions *)
(* ------------------------------------------------------------------ *)

(** The offsets of the requests in a trace, in the order they were sent. *)
Fixpoint requested_offsets (tr : list event) : list Z :=
  match tr with
  | [] => []
  | EvRequest q :: tr' => param_offset q :: requested_offsets tr'
  | _ :: tr' => requested_offsets tr'
  end.

(** The paths of the files written in a trace. *)
Fixpoint written_files (tr : list event) : list string :=
  match tr with
  | [] => []
  | EvWrite path _ :: tr' => path :: written_files tr'
  | _ :: tr' => written_files tr'
  end.

(** The messages printed in a trace. *)
Fixpoint printed (tr : list event) : list string :=
  match tr with
  | [] => []
  | EvPrint s :: tr' => s :: printed tr'
  | _ :: tr' => printed tr'
  end.

(** The four prompts of [main]. *)
Definition prompts : list event :=
  [EvPrompt prompt_companies; EvPrompt prompt_token;
   EvPrompt prompt_start; EvPrompt prompt_end].

(** What a successful response is turned into. *)
Definition decoded (resp : response) (batch_size : Z) : result json :=
  match body_json resp with
  | None => Raised JSONDecodeError
  | Some (JDict kv) =>
      match dict_get kv "reviews" (JList []) with
      | JList l => Val (JList (slice_to batch_size l))
      | JStr s =>
          Val (JStr (string_of_list_ascii
                       (slice_to batch_size (list_ascii_of_string s))))
      | _ => Raised TypeError
      end
  | Some _ => Raised AttributeError
  end.

Section Derived.

Context {P : Platform}.

(** One turn of [while True], read off the outcome of its fetch. *)
Definition turn (company auth_token : string) (start_date end_date : datetime)
           (fuel : nat) (all_reviews : list review) (offset : Z)
           (o : outcome json) : outcome (list review) :=
  match res o with
  | Val reviews =>
      if falsy reviews then mkOutcome (trace o) (final o) (Val all_reviews)
      else
        match for_reviews company start_date end_date (items reviews)
                          all_reviews with
        | Return acc => mkOutcome (trace o) (final o) (Val acc)
        | Throw e => mkOutcome (trace o) (final o) (Raised e)
        | Next acc =>
            let o' := while_true fuel company auth_token start_date end_date
                                 acc (offset + len reviews) (final o) in
            mkOutcome (trace o ++ trace o') (final o') (res o')
        end
  | Raised e => mkOutcome (trace o) (final o) (Raised e)
  | OutOfFuel => mkOutcome (trace o) (final o) OutOfFuel
  end.

(** The window [main] ends up with, or the message it stops on. *)
Definition validated (today start_date end_date : date)
  : (list event * option (date * date)) :=
  if Date.gt start_date today then ([EvPrint msg_future_start], None)
  else
    let warn := if Date.gt end_date today then [EvPrint msg_future_end] else [] in
    let end_date' := if Date.gt end_date today then today else end_date in
    if Date.gt start_date end_date' then (warn ++ [EvPrint msg_inverted], None)
    else (warn, Some (start_date, end_date')).

End Derived.

(* ------------------------------------------------------------------ *)
(** ** Scenarios *)
(* ------------------------------------------------------------------ *)

Module Scenario.

Import Reference.

Definition today : date := mkDate 2024 6 30.

Definition window_start : datetime := Datetime.midnight (mkDate 2024 6 1).
Definition window_end : datetime := Datetime.midnight (mkDate 2024 6 8).

(** Three reviews, newest first; the last is older than the window. *)
Definition newer : json := raw_review "2024-06-10T08:00:00" "after the window".
Definition inside : json := raw_review "2024-06-05T09:00:00" "inside the window".
Definition older : json := raw_review "2024-05-01T00:00:00" "before the window".

Definition descending : request -> response := paged [newer; inside; older] 50.

Definition kept_inside : review :=
  mkReview "g2" "notion" (JStr "inside the window") (JStr EmptyString) (JStr EmptyString)
           (JInt 5) "2024-06-05".

(** The same reviews, two to a page. *)
Definition two_a_page : request -> response := paged [newer; inside; older] 2.

(** One review written in the morning of the last day of the window. *)
Definition last_day : json := raw_review "2024-06-08T10:30:00" "on the last day".
Definition last_day_server : request -> response := paged [last_day] 50.

(** One review whose timestamp carries a UTC offset. *)
Definition with_offset : json :=
  raw_review "2024-06-05T10:00:00+00:00" "with an offset".
Definition offset_server : request -> response := paged [with_offset] 50.

Definition failing_server (q : request) : response :=
  mkResponse 500 "Internal Server Error" None.

Definition typed (companies start_str end_str : string) : list string :=
  [companies; "tok"; start_str; end_str].

(** Two reviews of January 2024 followed by one of December 2023. *)
Definition january_server : request -> response :=
  paged [raw_review "2024-01-15" "first"; raw_review "2024-01-20" "second";
         raw_review "2023-12-20" "third"] 50.

End Scenario.

(* ------------------------------------------------------------------ *)
(** ** Notions for the further properties *)
(* ------------------------------------------------------------------ *)

(** The files written in a trace, each with what was written. *)
Fixpoint writes (tr : list event) : list (string * list review) :=
  match tr with
  | [] => []
  | EvWrite path content :: tr' => (path, content) :: writes tr'
  | _ :: tr' => writes tr'
  end.

(** The files opened for writing in a trace. *)
Fixpoint opened (tr : list event) : list string :=
  match tr with
  | [] => []
  | EvOpen path :: tr' => path :: opened tr'
  | _ :: tr' => opened tr'
  end.

(** The requests sent in a trace. *)
Fixpoint requests (tr : list event) : list request :=
  match tr with
  | [] => []
  | EvRequest q :: tr' => q :: requests tr'
  | _ :: tr' => requests tr'
  end.

(** A request for [company] with [auth_token] to the reviews endpoint. *)
Definition request_for (company auth_token : string) (q : request) : Prop :=
  url q = api_url /\ param_id q = company /\ param_auth_token q = auth_token.

Definition not_comma (c : ascii) : bool := negb (PyStr.is_comma c).

(** [",".join(cs)] *)
Definition join_comma (cs : list string) : string := String.concat "," cs.

(** A platform with a stateless server and the given parsers. *)
Definition served (iso fromiso : string -> option datetime)
           (server : request -> response) : Platform :=
  {| World := unit;
     http_get := fun w q => (w, Some (server q));
     isoparse := iso;
     fromisoformat := fromiso;
     makedirs := fun w _ => (w, true);
     open_write := fun w _ => (w, true);
     dump := fun w _ _ => (w, true) |}.

Section Notions.

Context {P : Platform}.

(** What a function that ends its [for] loop with [return all_reviews]
    gives back. *)
Definition flow_result (f : flow) : result (list review) :=
  match f with
  | Next acc => Val acc
  | Return acc => Val acc
  | Throw e => Raised e
  end.

(** Both comparisons of [start_date <= t <= end_date] hold. *)
Definition in_window (start_date end_date t : datetime) : bool :=
  match Datetime.le start_date t, Datetime.le t end_date with
  | Some true, Some true => true
  | _, _ => false
  end.

(** The record made from a raw review whose date is in the window. *)
Definition admissible (company : string) (start_date end_date : datetime)
           (rv : review) : Prop :=
  exists r t,
    try_isoparse r = Some t
    /\ in_window start_date end_date t = true
    /\ rv = normalize company r t.

(** The raw reviews of the pages a run of the loop fetches: those of the
    page of its first turn, and, when that page is not empty and its [for]
    loop runs to the end, those of the turns that follow. *)
Inductive fetched_in (company auth_token : string)
          (start_date end_date : datetime)
  : nat -> list review -> Z -> state -> json -> Prop :=
| fetched_first (fuel : nat) (acc : list review) (offset : Z) (st : state)
                (page r : json) :
    res (fetch_g2_reviews company auth_token offset default_batch_size st)
    = Val page ->
    In r (items page) ->
    fetched_in company auth_token start_date end_date
               (S fuel) acc offset st r
| fetched_later (fuel : nat) (acc acc' : list review) (offset : Z)
                (st : state) (page r : json) :
    res (fetch_g2_reviews company auth_token offset default_batch_size st)
    = Val page ->
    falsy page = false ->
    for_reviews company start_date end_date (items page) acc = Next acc' ->
    fetched_in company auth_token start_date end_date fuel acc'
               (offset + len page)
               (final (fetch_g2_reviews company auth_token offset
                                        default_batch_size st)) r ->
    fetched_in company auth_token start_date end_date
               (S fuel) acc offset st r.

(** The record made from a raw review that the run fetched and whose date
    is in the window. *)
Definition from_fetched (company auth_token : string)
           (start_date end_date : datetime) (fuel : nat)
           (acc : list review) (offset : Z) (st : state) (rv : review)
  : Prop :=
  exists r t,
    fetched_in company auth_token start_date end_date fuel acc offset st r
    /\ try_isoparse r = Some t
    /\ in_window start_date end_date t = true
    /\ rv = normalize company r t.

(** The dates of the reviews of a page that parse, in page order. *)
Definition dates (l : list json) : list datetime :=
  flat_map (fun r => match try_isoparse r with Some t => [t] | None => [] end) l.

(** The records of the reviews of a page whose date is in the window. *)
Definition kept (company : string) (start_date end_date : datetime)
           (l : list json) : list review :=
  flat_map (fun r => match try_isoparse r with
                     | Some t => if in_window start_date end_date t
                                 then [normalize company r t] else []
                     | None => []
                     end) l.

(** The API holds the reviews [all] of a company and answers a request at
    an offset with status 200 and a JSON object whose [reviews] list is a
    leading part of what lies from that offset on, empty only when nothing
    is left. *)
Definition serves (company auth_token : string) (all : list json) : Prop :=
  forall (w : World) (o : nat),
  exists w' resp kv l rest,
    http_get w (mkRequest api_url company auth_token (Z.of_nat o))
    = (w', Some resp)
    /\ status_code resp = 200
    /\ body_json resp = Some (JDict kv)
    /\ assoc "reviews" kv = Some (JList l)
    /\ skipn o all = l ++ rest
    /\ (l = [] -> rest = []).

(** The dates are naive and none is later than the one before it. *)
Definition descending_dates (ts : list datetime) : Prop :=
  Forall Datetime.naive ts
  /\ StronglySorted (fun a b => Datetime.le b a = Some true) ts.

End Notions.

Module MoreScenarios.

Import Reference.

(** Two reviews without a usable timestamp. *)
Definition garbled : list json := [JNull; raw_review "last week" "undated"].
Definition garbled_server : request -> response := paged garbled 50.

(** A 200 response whose object has no [reviews] key. *)
Definition bare_server (q : request) : response :=
  ok (JDict [("status", JStr "ok")]).

(** A 200 response that is not JSON. *)
Definition html_server (q : request) : response :=
  mkResponse 200 "<html>maintenance</html>" None.

(** Reviews for every company but [jira], whose only review carries a UTC
    offset. *)
Definition mixed_server (q : request) : response :=
  if String.eqb (param_id q) "jira" then Scenario.offset_server q
  else Scenario.descending q.

Definition all_reviews : list json :=
  [Scenario.newer; Scenario.inside; Scenario.older].

(** U+00A0, the no-break space, and U+0085, the next-line control. *)
Definition nbsp : string := String (ascii_of_nat 160) EmptyString.
Definition nel : string := String (ascii_of_nat 133) EmptyString.

(** A company line of commas and whitespace of several kinds. *)
Definition blank_line : string := (" ," ++ nbsp ++ ",  " ++ nel ++ ",")%string.

(** Lines padded with whitespace that is not ASCII. *)
Definition padded_company : string := (nbsp ++ "jira" ++ nbsp)%string.
Definition padded_token : string := ("tok" ++ nbsp)%string.
Definition padded_start : string := (nbsp ++ "2024-06-01")%string.
Definition padded_end : string := ("2024-06-08" ++ nel)%string.

End MoreScenarios.

(* ------------------------------------------------------------------ *)
(** * Properties *)
(* ------------------------------------------------------------------ *)

(** ** Sequences and strings *)

Lemma slice_to_length {A : Type} (n : Z) (l : list A) :
  0 <= n -> Z.of_nat (List.length (slice_to n l)) <= n.
Proof.
  intros Hn. unfold slice_to.
  destruct (0 <=? n) eqn:E; [|apply Z.leb_gt in E; lia].
  pose proof (firstn_le_length (Z.to_nat n) l). lia.
Qed.

Lemma items_string_length (cs : list ascii) :
  List.length (items (JStr (string_of_list_ascii cs))) = List.length cs.
Proof.
  unfold items. now rewrite length_map, list_ascii_of_string_of_list_ascii.
Qed.

Lemma contains_middle (pre x post : string) :
  PyStr.contains (pre ++ x ++ post)%string x.
Proof. now exists pre, post. Qed.

Lemma append_nil_r (x : string) : (x ++ EmptyString)%string = x.
Proof. induction x as [|c x IH]; [reflexivity|]. cbn. now rewrite IH. Qed.

Lemma append_assoc (a b c : string) :
  ((a ++ b) ++ c)%string = (a ++ b ++ c)%string.
Proof. induction a as [|x a IH]; [reflexivity|]. cbn. now rewrite IH. Qed.

(** ** The page fetcher *)

Section Fetcher.

Context {P : Platform}.

Lemma fetch_g2_reviews_eq company auth_token offset batch_size st w resp :
  http_get (world st) (mkRequest api_url company auth_token offset)
  = (w, Some resp) ->
  fetch_g2_reviews company auth_token offset batch_size st
  = if status_code resp =? 200
    then mkOutcome [EvRequest (mkRequest api_url company auth_token offset)]
                   (mkState w (stdin st)) (decoded resp batch_size)
    else mkOutcome [EvRequest (mkRequest api_url company auth_token offset);
                    EvPrint (api_error_message company resp)]
                   (mkState w (stdin st)) (Val (JList [])).
Proof.
  intros H. unfold fetch_g2_reviews, bind, requests_get. rewrite H. cbn.
  destruct (status_code resp =? 200); cbn; [|reflexivity].
  unfold decoded, response_json.
  destruct (body_json resp) as [v|]; cbn; [|reflexivity].
  destruct v; cbn; try reflexivity.
  destruct (dict_get kv "reviews" (JList [])); cbn;
    rewrite ?app_nil_r; reflexivity.
Qed.

Lemma fetch_g2_reviews_no_response company auth_token offset batch_size st w :
  http_get (world st) (mkRequest api_url company auth_token offset)
  = (w, None) ->
  fetch_g2_reviews company auth_token offset batch_size st
  = mkOutcome [EvRequest (mkRequest api_url company auth_token offset)]
              (mkState w (stdin st)) (Raised RequestException).
Proof.
  intros H. unfold fetch_g2_reviews, bind, requests_get. now rewrite H.
Qed.

Lemma decoded_len resp batch_size reviews :
  0 <= batch_size -> decoded resp batch_size = Val reviews ->
  len reviews <= batch_size.
Proof.
  intros Hn. unfold decoded.
  destruct (body_json resp) as [[]|]; try discriminate.
  destruct (dict_get kv "reviews" (JList [])); try discriminate.
  - intros [= <-]. unfold len. rewrite items_string_length.
    now apply slice_to_length.
  - intros [= <-]. now apply slice_to_length.
Qed.

(** C5. A response whose status is not 200 makes [fetch_g2_reviews] print
    one diagnostic that contains the company, the status and the response
    body, and return the empty list as a value: nothing is raised.  With
    status 200 whatever is returned has at most [batch_size] entries, 50 by
    default. *)
Theorem fetch_g2_reviews_soft_failure
        company auth_token offset batch_size st w resp :
  http_get (world st) (mkRequest api_url company auth_token offset)
  = (w, Some resp) ->
  let q := mkRequest api_url company auth_token offset in
  let o := fetch_g2_reviews company auth_token offset batch_size st in
  (status_code resp <> 200 ->
   o = mkOutcome [EvRequest q; EvPrint (api_error_message company resp)]
                 (mkState w (stdin st)) (Val (JList []))
   /\ PyStr.contains (api_error_message company resp) company
   /\ PyStr.contains (api_error_message company resp)
                     (PyStr.of_Z (status_code resp))
   /\ PyStr.contains (api_error_message company resp) (text resp))
  /\ (status_code resp = 200 -> 0 <= batch_size ->
      forall reviews, res o = Val reviews -> len reviews <= batch_size)
  /\ (status_code resp = 200 ->
      forall reviews,
        res (fetch_g2_reviews company auth_token offset default_batch_size st)
        = Val reviews ->
        len reviews <= 50).
Proof.
  intros H q o. subst o q. split; [|split].
  - intros Hs. rewrite (fetch_g2_reviews_eq _ _ _ _ _ _ _ H).
    apply Z.eqb_neq in Hs. rewrite Hs. split; [reflexivity|].
    unfold api_error_message. repeat split.
    + apply (contains_middle "API Error for ").
    + exists ("API Error for " ++ company ++ ": ")%string,
             (" " ++ text resp)%string.
      now rewrite !append_assoc.
    + exists ("API Error for " ++ company ++ ": "
                ++ PyStr.of_Z (status_code resp) ++ " ")%string, EmptyString.
      now rewrite !append_assoc, append_nil_r.
  - intros Hs Hn reviews. rewrite (fetch_g2_reviews_eq _ _ _ _ _ _ _ H).
    apply Z.eqb_eq in Hs. rewrite Hs. cbn. now apply decoded_len.
  - intros Hs reviews. rewrite (fetch_g2_reviews_eq _ _ _ _ _ _ _ H).
    apply Z.eqb_eq in Hs. rewrite Hs. cbn. apply decoded_len.
    unfold default_batch_size. lia.
Qed.

End Fetcher.

Lemma fetch_g2_reviews_soft_failure_witness :
  (@fetch_g2_reviews (Reference.platform Scenario.failing_server)
     "notion" "tok" 0 50 (Reference.start Scenario.failing_server [])
   = mkOutcome
       [EvRequest (mkRequest api_url "notion" "tok" 0);
        EvPrint "API Error for notion: 500 Internal Server Error"]
       (Reference.start Scenario.failing_server []) (Val (JList [])))
  /\ (forall reviews,
        res (@fetch_g2_reviews
               (Reference.platform (Reference.paged [JNull; JNull; JNull] 2))
               "notion" "tok" 0 1
               (Reference.start (Reference.paged [JNull; JNull; JNull] 2) []))
        = Val reviews -> len reviews <= 1).
Proof.
  split.
  - apply (@fetch_g2_reviews_soft_failure
             (Reference.platform Scenario.failing_server)
             "notion" "tok" 0 50 (Reference.start Scenario.failing_server []) tt
             (Scenario.failing_server (mkRequest api_url "notion" "tok" 0)) eq_refl).
    cbn. discriminate.
  - apply (@fetch_g2_reviews_soft_failure
             (Reference.platform (Reference.paged [JNull; JNull; JNull] 2))
             "notion" "tok" 0 1
             (Reference.start (Reference.paged [JNull; JNull; JNull] 2) []) tt
             (Reference.paged [JNull; JNull; JNull] 2
                              (mkRequest api_url "notion" "tok" 0)) eq_refl).
    + reflexivity.
    + lia.
Defined.

(** ** Ordering of dates and date-times *)

Lemma lex_compare_opp (a b : list Z) :
  lex_compare b a = CompOpp (lex_compare a b).
Proof.
  revert b. induction a as [|x a IH]; intros [|y b]; cbn; try reflexivity.
  rewrite (Z.compare_antisym x y).
  destruct (x ?= y); cbn; auto.
Qed.

Lemma lex_compare_le_lt_trans (a b c : list Z) :
  lex_compare a b <> Gt -> lex_compare b c = Lt -> lex_compare a c = Lt.
Proof.
  revert b c. induction a as [|x a IH]; intros [|y b] [|z c]; cbn;
    try congruence.
  destruct (x ?= y) eqn:Exy; destruct (y ?= z) eqn:Eyz; try congruence;
    intros Hab Hbc.
  - apply Z.compare_eq in Exy, Eyz. subst.
    rewrite Z.compare_refl. eauto.
  - apply Z.compare_eq in Exy. subst. now rewrite Eyz.
  - apply Z.compare_eq in Eyz. subst. now rewrite Exy.
  - rewrite Z.compare_lt_iff in *.
    assert (E : (x ?= z) = Lt) by (apply Z.compare_lt_iff; lia).
    now rewrite E.
Qed.

Lemma datetime_lt_flip (a b : datetime) :
  Datetime.lt a b = Some true -> Datetime.le b a = Some false.
Proof.
  unfold Datetime.lt, Datetime.le, Datetime.cmp.
  destruct (tzinfo a) as [oa|], (tzinfo b) as [ob|]; cbn; try discriminate.
  - rewrite (Z.eqb_sym ob oa). destruct (oa =? ob); cbn.
    + rewrite (lex_compare_opp (Datetime.key a) (Datetime.key b)).
      destruct (lex_compare (Datetime.key a) (Datetime.key b)); cbn; congruence.
    + rewrite (Z.compare_antisym (Datetime.utc_micros a oa)).
      destruct (Datetime.utc_micros a oa ?= Datetime.utc_micros b ob); cbn;
        congruence.
  - rewrite (lex_compare_opp (Datetime.key a) (Datetime.key b)).
    destruct (lex_compare (Datetime.key a) (Datetime.key b)); cbn; congruence.
Qed.

(** Among naive values: [a <= b] and [b < c] give [a < c]. *)
Lemma datetime_naive_le_lt (a b c : datetime) :
  Datetime.naive a -> Datetime.naive b ->
  Datetime.le a b = Some true -> Datetime.lt b c = Some true ->
  Datetime.lt a c = Some true /\ Datetime.naive c.
Proof.
  unfold Datetime.naive, Datetime.lt, Datetime.le, Datetime.cmp.
  intros -> ->. destruct (tzinfo c); cbn; try discriminate.
  intros Hab Hbc. split; [|reflexivity]. f_equal.
  rewrite (lex_compare_le_lt_trans (Datetime.key a) (Datetime.key b)
                                   (Datetime.key c)); [reflexivity| |].
  - destruct (lex_compare (Datetime.key a) (Datetime.key b)); cbn in *;
      congruence.
  - destruct (lex_compare (Datetime.key b) (Datetime.key c)); cbn in *;
      congruence.
Qed.

Lemma datetime_lt_le (a b : datetime) :
  Datetime.lt a b = Some true -> Datetime.le a b = Some true.
Proof.
  unfold Datetime.lt, Datetime.le.
  destruct (Datetime.cmp a b) as [[]|]; cbn; congruence.
Qed.

Lemma datetime_mixed (a b : datetime) :
  Datetime.aware a -> Datetime.naive b -> Datetime.lt a b = None.
Proof.
  unfold Datetime.aware, Datetime.naive, Datetime.lt, Datetime.cmp.
  intros Ha ->. destruct (tzinfo a); [reflexivity|congruence].
Qed.

Lemma date_lt_trans (a b c : date) :
  Date.lt a b = true -> Date.lt b c = true -> Date.lt a c = true.
Proof.
  unfold Date.lt. intros Hab Hbc.
  rewrite (lex_compare_le_lt_trans (Date.key a) (Date.key b) (Date.key c));
    [reflexivity| |].
  - destruct (lex_compare (Date.key a) (Date.key b)); cbn in *; congruence.
  - destruct (lex_compare (Date.key b) (Date.key c)); cbn in *; congruence.
Qed.

Lemma falsy_app_cons (page r : json) (pre post : list json) :
  items page = pre ++ r :: post -> falsy page = false.
Proof. unfold falsy. intros ->. now destruct pre. Qed.

Lemma falsy_false_len (page : json) : falsy page = false -> 0 < len page.
Proof.
  unfold falsy, len. destruct (items page); [discriminate|]. cbn. lia.
Qed.

(** The window [main] passes on, where [fromisoformat] reads a date string
    as the midnight of that day: naive bounds, in order. *)
Lemma midnight_window (a b : date) :
  Date.gt a b = false ->
  Datetime.naive (Datetime.midnight a)
  /\ Datetime.naive (Datetime.midnight b)
  /\ Datetime.le (Datetime.midnight a) (Datetime.midnight b) = Some true.
Proof.
  intros H. repeat split.
  unfold Date.gt, Date.lt in H.
  rewrite (lex_compare_opp (Date.key a) (Date.key b)) in H.
  unfold Datetime.le, Datetime.cmp, Datetime.midnight, Datetime.key.
  unfold Date.key in H. cbn in *.
  destruct (d_year a ?= d_year b); cbn in *; try reflexivity; try discriminate.
  destruct (d_month a ?= d_month b); cbn in *; try reflexivity; try discriminate.
  destruct (d_day a ?= d_day b); cbn in *; try reflexivity; discriminate.
Qed.

(** ** The date-bounded collector *)

Section Collector.

Context {P : Platform}.

Variables (company auth_token : string) (start_date end_date : datetime).

Lemma for_reviews_app (pre rest : list json) (acc : list review) :
  for_reviews company start_date end_date (pre ++ rest) acc
  = match for_reviews company start_date end_date pre acc with
    | Next acc' => for_reviews company start_date end_date rest acc'
    | out => out
    end.
Proof.
  revert acc. induction pre as [|r pre IH]; intros acc; cbn; [reflexivity|].
  destruct (for_body company start_date end_date acc r); auto.
Qed.

Lemma while_true_turn (fuel : nat) (acc : list review) (offset : Z) (st : state) :
  while_true (S fuel) company auth_token start_date end_date acc offset st
  = turn company auth_token start_date end_date fuel acc offset
         (fetch_g2_reviews company auth_token offset default_batch_size st).
Proof.
  cbn [while_true]. unfold bind, turn.
  destruct (res (fetch_g2_reviews company auth_token offset
                                  default_batch_size st)) as [reviews| |];
    try reflexivity.
  destruct (falsy reviews); cbn; [now rewrite app_nil_r|].
  destruct (for_reviews company start_date end_date (items reviews) acc); cbn;
    now rewrite ?app_nil_r.
Qed.

(** C2. When the [for] loop over a fetched page reaches a review whose
    parsed date is strictly earlier than [start_date], the collector
    returns the accumulator as it stands: the reviews after it in the page
    play no role, and the events of the run are those of the fetch that
    brought the page, so no further request is made. *)
Theorem early_return_on_older_review
        (fuel : nat) (acc acc' : list review) (offset : Z) (st : state)
        (page r : json) (pre post : list json) (review_date : datetime) :
  let o := fetch_g2_reviews company auth_token offset default_batch_size st in
  res o = Val page ->
  items page = pre ++ r :: post ->
  for_reviews company start_date end_date pre acc = Next acc' ->
  try_isoparse r = Some review_date ->
  Datetime.lt review_date start_date = Some true ->
  while_true (S fuel) company auth_token start_date end_date acc offset st
  = mkOutcome (trace o) (final o) (Val acc').
Proof.
  intros o Hres Hitems Hpre Hparse Hlt. subst o.
  rewrite while_true_turn. unfold turn. rewrite Hres.
  rewrite (falsy_app_cons _ _ _ _ Hitems), Hitems, for_reviews_app, Hpre.
  cbn. unfold for_body. now rewrite Hparse, Hlt.
Qed.

(** A review whose date is aware cannot be compared with a naive
    [start_date]: the comparison that follows the guarded parse raises
    [TypeError], which leaves the loop and the function. *)
Lemma aware_review_raises
      (fuel : nat) (acc acc' : list review) (offset : Z) (st : state)
      (page r : json) (pre post : list json) (review_date : datetime) :
  let o := fetch_g2_reviews company auth_token offset default_batch_size st in
  Datetime.naive start_date ->
  res o = Val page ->
  items page = pre ++ r :: post ->
  for_reviews company start_date end_date pre acc = Next acc' ->
  try_isoparse r = Some review_date ->
  Datetime.aware review_date ->
  while_true (S fuel) company auth_token start_date end_date acc offset st
  = mkOutcome (trace o) (final o) (Raised TypeError).
Proof.
  intros o Hn Hres Hitems Hpre Hparse Ha. subst o.
  rewrite while_true_turn. unfold turn. rewrite Hres.
  rewrite (falsy_app_cons _ _ _ _ Hitems), Hitems, for_reviews_app, Hpre.
  cbn. unfold for_body.
  now rewrite Hparse, (datetime_mixed _ _ Ha Hn).
Qed.

(** The comparisons of a naive review date later than [end_date]. *)
Lemma for_body_later (acc : list review) (r : json) (review_date : datetime) :
  Datetime.naive start_date -> Datetime.naive end_date ->
  Datetime.le start_date end_date = Some true ->
  try_isoparse r = Some review_date ->
  Datetime.lt end_date review_date = Some true ->
  for_body company start_date end_date acc r = Next acc.
Proof.
  intros Hs He Hwin Hparse Hlater. unfold for_body. rewrite Hparse.
  destruct (datetime_naive_le_lt _ _ _ Hs He Hwin Hlater) as [Hlt _].
  rewrite (datetime_lt_le _ _ Hlt).
  apply datetime_lt_flip in Hlt. apply datetime_lt_flip in Hlater.
  assert (E : Datetime.lt review_date start_date = Some false).
  { revert Hlt. unfold Datetime.lt, Datetime.le.
    destruct (Datetime.cmp review_date start_date) as [[]|]; cbn; congruence. }
  now rewrite E, Hlater.
Qed.

(** C6. A review whose parsed date is strictly later than [end_date] (the
    window being a valid one, [start_date <= end_date], of naive values) is
    dropped: the accumulator is unchanged, the [for] loop goes on with the
    next review exactly as if the review were not in the page, and when the
    loop finishes the page the [while] loop goes on to fetch the next page,
    past every review of this one. *)
Theorem later_review_is_dropped
        (acc : list review) (r : json) (review_date : datetime) :
  Datetime.naive start_date -> Datetime.naive end_date ->
  Datetime.le start_date end_date = Some true ->
  try_isoparse r = Some review_date ->
  Datetime.lt end_date review_date = Some true ->
  for_body company start_date end_date acc r = Next acc
  /\ (forall pre post acc0,
        for_reviews company start_date end_date pre acc0 = Next acc ->
        for_reviews company start_date end_date (pre ++ r :: post) acc0
        = for_reviews company start_date end_date post acc)
  /\ (forall fuel offset st page pre post acc0 acc',
        let o := fetch_g2_reviews company auth_token offset
                                  default_batch_size st in
        res o = Val page ->
        items page = pre ++ r :: post ->
        for_reviews company start_date end_date pre acc0 = Next acc ->
        for_reviews company start_date end_date post acc = Next acc' ->
        let o' := while_true fuel company auth_token start_date end_date
                             acc' (offset + len page) (final o) in
        while_true (S fuel) company auth_token start_date end_date
                   acc0 offset st
        = mkOutcome (trace o ++ trace o') (final o') (res o')).
Proof.
  intros Hs He Hwin Hparse Hlater.
  pose proof (for_body_later acc r review_date Hs He Hwin Hparse Hlater) as Hb.
  split; [exact Hb|]. split.
  - intros pre post acc0 Hpre.
    rewrite for_reviews_app, Hpre. cbn. now rewrite Hb.
  - intros fuel offset st page pre post acc0 acc' o Hres Hitems Hpre Hpost o'.
    subst o' o. rewrite while_true_turn. unfold turn. rewrite Hres.
    rewrite (falsy_app_cons _ _ _ _ Hitems), Hitems, for_reviews_app, Hpre.
    cbn. now rewrite Hb, Hpost.
Qed.

End Collector.

(** ** Pagination *)

Lemma requested_offsets_app (a b : list event) :
  requested_offsets (a ++ b) = requested_offsets a ++ requested_offsets b.
Proof.
  induction a as [|e a IH]; [reflexivity|].
  destruct e; cbn; now rewrite ?IH.
Qed.

Section Pagination.

Context {P : Platform}.

Variables (company auth_token : string) (start_date end_date : datetime).

Lemma fetch_requests_once (offset batch_size : Z) (st : state) :
  requested_offsets
    (trace (fetch_g2_reviews company auth_token offset batch_size st))
  = [offset].
Proof.
  destruct (http_get (world st) (mkRequest api_url company auth_token offset))
    as [w [resp|]] eqn:E.
  - rewrite (fetch_g2_reviews_eq _ _ _ _ _ _ _ E).
    now destruct (status_code resp =? 200).
  - now rewrite (fetch_g2_reviews_no_response _ _ _ _ _ _ E).
Qed.

(** The requests of the loop started at [offset]: strictly increasing
    offsets, none below [offset]. *)
Lemma while_true_offsets (fuel : nat) (acc : list review) (offset : Z)
      (st : state) :
  let offs := requested_offsets
                (trace (while_true fuel company auth_token start_date end_date
                                   acc offset st)) in
  StronglySorted Z.lt offs /\ Forall (fun o => offset <= o) offs.
Proof.
  revert acc offset st.
  induction fuel as [|fuel IH]; intros acc offset st; cbn zeta.
  - cbn. split; constructor.
  - rewrite while_true_turn. unfold turn.
    pose proof (fetch_requests_once offset default_batch_size st) as Hone.
    set (o := fetch_g2_reviews company auth_token offset default_batch_size st)
      in *.
    assert (Hbase : StronglySorted Z.lt [offset]
                    /\ Forall (fun x => offset <= x) [offset]).
    { split; repeat constructor. lia. }
    destruct (res o) as [reviews| |]; cbn [trace]; rewrite ?Hone; auto.
    destruct (falsy reviews) eqn:Hf; cbn [trace]; rewrite ?Hone; auto.
    destruct (for_reviews company start_date end_date (items reviews) acc);
      cbn [trace]; rewrite ?Hone; auto.
    rewrite requested_offsets_app, Hone.
    destruct (IH all_reviews (offset + len reviews) (final o)) as [Hs Hge].
    apply falsy_false_len in Hf.
    cbn [app]. split.
    + constructor; [exact Hs|].
      eapply Forall_impl; [|exact Hge]. cbn. intros; lia.
    + constructor; [lia|].
      eapply Forall_impl; [|exact Hge]. cbn. intros; lia.
Qed.

(** C3. The offsets the collector requests are strictly increasing, so no
    offset is requested twice.  A turn of the loop that goes round again
    moves the offset forward by the length of the page it has just
    processed, which is at least one, whatever the number of reviews it
    kept. *)
Theorem offset_strictly_increases (fuel : nat) (acc : list review)
        (offset : Z) (st : state) :
  let run := while_true fuel company auth_token start_date end_date
                        acc offset st in
  StronglySorted Z.lt (requested_offsets (trace run))
  /\ NoDup (requested_offsets (trace run))
  /\ (forall page acc',
        let o := fetch_g2_reviews company auth_token offset
                                  default_batch_size st in
        res o = Val page ->
        falsy page = false ->
        for_reviews company start_date end_date (items page) acc = Next acc' ->
        let o' := while_true fuel company auth_token start_date end_date
                             acc' (offset + len page) (final o) in
        while_true (S fuel) company auth_token start_date end_date
                   acc offset st
        = mkOutcome (trace o ++ trace o') (final o') (res o')
        /\ offset < offset + len page
        /\ requested_offsets (trace o) = [offset]).
Proof.
  cbn zeta.
  destruct (while_true_offsets fuel acc offset st) as [Hs _].
  split; [exact Hs|]. split.
  - revert Hs. generalize (requested_offsets
      (trace (while_true fuel company auth_token start_date end_date
                         acc offset st))).
    induction 1 as [|x l Hl IH Hx]; constructor; auto.
    intros Hin. rewrite Forall_forall in Hx. specialize (Hx _ Hin). lia.
  - intros page acc' Hres Hf Hnext.
    rewrite while_true_turn. unfold turn. rewrite Hres, Hf, Hnext.
    split; [reflexivity|]. split.
    + apply falsy_false_len in Hf. lia.
    + apply fetch_requests_once.
Qed.

End Pagination.

(** ** The session driver *)

Lemma lstrip_all_space (s : string) :
  PyStr.all_chars PyStr.is_space s = true -> PyStr.lstrip s = EmptyString.
Proof.
  induction s as [|c s IH]; cbn; [reflexivity|].
  destruct (PyStr.is_space c); cbn; [exact IH|discriminate].
Qed.

Lemma strip_all_space (s : string) :
  PyStr.all_chars PyStr.is_space s = true -> PyStr.strip s = EmptyString.
Proof. intros H. unfold PyStr.strip. now rewrite lstrip_all_space. Qed.

Lemma split_comma_all_space (s : string) :
  PyStr.all_chars (fun c => PyStr.is_comma c || PyStr.is_space c) s = true ->
  Forall (fun piece => PyStr.all_chars PyStr.is_space piece = true)
         (PyStr.split_comma s).
Proof.
  induction s as [|c s IH]; cbn.
  - intros _. now repeat constructor.
  - intros H. apply andb_prop in H as [Hc Hs]. specialize (IH Hs).
    destruct (PyStr.is_comma c) eqn:Ec.
    + constructor; [reflexivity|exact IH].
    + cbn in Hc. destruct (PyStr.split_comma s) as [|h t].
      * repeat constructor. cbn. now rewrite Hc.
      * inversion IH as [|? ? Hh Ht]; subst.
        constructor; [|exact Ht]. cbn. now rewrite Hc, Hh.
Qed.

Lemma parse_companies_blank (s : string) :
  PyStr.all_chars (fun c => PyStr.is_comma c || PyStr.is_space c) s = true ->
  parse_companies s = [].
Proof.
  intros H. apply split_comma_all_space in H. unfold parse_companies.
  induction H as [|piece l Hp _ IH]; [reflexivity|].
  cbn. now rewrite (strip_all_space _ Hp).
Qed.

Section Driver.

Context {P : Platform}.

(** [main] from the four lines it reads. *)
Lemma main_eq (today : date) (fuel : nat) (st : state)
      (l1 l2 l3 l4 : string) (rest : list string) :
  stdin st = l1 :: l2 :: l3 :: l4 :: rest ->
  let st' := mkState (world st) rest in
  main today fuel st
  = match fromisoformat (PyStr.strip l3), fromisoformat (PyStr.strip l4) with
    | Some sdt, Some edt =>
        match validated today (Datetime.date_of sdt) (Datetime.date_of edt) with
        | (msgs, None) => mkOutcome (prompts ++ msgs) st' (Val tt)
        | (msgs, Some (start_date, end_date)) =>
            let o := bind (for_companies fuel (PyStr.strip l2)
                                         (Date.isoformat start_date)
                                         (Date.isoformat end_date)
                                         (parse_companies l1))
                          (fun _ => print msg_done) st' in
            mkOutcome (prompts ++ msgs ++ trace o) (final o) (res o)
        end
    | _, _ => mkOutcome prompts st' (Raised ValueError)
    end.
Proof.
  destruct st as [w sin]. cbn [stdin world]. intros ->. cbn zeta.
  unfold main, bind, input, datetime_fromisoformat, validated. cbn.
  destruct (fromisoformat (PyStr.strip l3)) as [sdt|]; cbn; [|reflexivity].
  destruct (fromisoformat (PyStr.strip l4)) as [edt|]; cbn; [|reflexivity].
  destruct (Date.gt (Datetime.date_of sdt) today); cbn; [reflexivity|].
  destruct (Date.gt (Datetime.date_of edt) today); cbn.
  - destruct (Date.gt (Datetime.date_of sdt) today); cbn; [reflexivity|].
    match goal with |- context [res ?x] => destruct (res x) end; reflexivity.
  - destruct (Date.gt (Datetime.date_of sdt) (Datetime.date_of edt)); cbn;
      [reflexivity|].
    match goal with |- context [res ?x] => destruct (res x) end; reflexivity.
Qed.

Lemma validated_window (today start_date end_date : date) :
  Date.gt start_date today = false ->
  Date.gt start_date
          (if Date.gt end_date today then today else end_date) = false ->
  validated today start_date end_date
  = (map EvPrint (if Date.gt end_date today then [msg_future_end] else []),
     Some (start_date, if Date.gt end_date today then today else end_date)).
Proof.
  intros H1 H2. unfold validated. rewrite H1.
  destruct (Date.gt end_date today); now rewrite H2.
Qed.

Lemma fetch_reviews_in_date_range_eq (fuel : nat)
      (company auth_token start_str end_str : string)
      (start_date end_date : datetime) (st : state) :
  fromisoformat start_str = Some start_date ->
  fromisoformat end_str = Some end_date ->
  fetch_reviews_in_date_range fuel company auth_token start_str end_str st
  = let o := while_true fuel company auth_token start_date end_date [] 0 st in
    mkOutcome (EvPrint (fetching_message company start_date end_date) :: trace o)
              (final o) (res o).
Proof.
  intros Hs He.
  unfold fetch_reviews_in_date_range, bind, datetime_fromisoformat.
  rewrite Hs. cbn. rewrite He. cbn.
  destruct (res (while_true fuel company auth_token start_date end_date [] 0 st));
    reflexivity.
Qed.

(** An exception in the collector leaves the loop over the companies. *)
Lemma for_companies_raised (fuel : nat)
      (auth_token start_str end_str company : string) (others : list string)
      (st : state) (e : exn) :
  let o := fetch_reviews_in_date_range fuel company auth_token
                                       start_str end_str st in
  res o = Raised e ->
  for_companies fuel auth_token start_str end_str (company :: others) st
  = mkOutcome (trace o) (final o) (Raised e).
Proof.
  intros o H. subst o. cbn [for_companies]. unfold bind at 1. now rewrite H.
Qed.

Lemma bind_assoc {A B C : Type} (m : M A) (f : A -> M B) (g : B -> M C)
      (st : state) :
  bind (bind m f) g st = bind m (fun x => bind (f x) g) st.
Proof.
  unfold bind. destruct (res (m st)) as [a| |]; cbn; try reflexivity.
  destruct (res (f a (final (m st)))) as [b| |]; cbn;
    now rewrite ?app_assoc.
Qed.

Lemma bind_ext {A B : Type} (m : M A) (f g : A -> M B) (st : state) :
  (forall a st', f a st' = g a st') -> bind m f st = bind m g st.
Proof.
  intros H. unfold bind. destruct (res (m st)); try reflexivity.
  now rewrite H.
Qed.

Lemma for_companies_app (fuel : nat) (auth_token start_str end_str : string)
      (before after : list string) (st : state) :
  for_companies fuel auth_token start_str end_str (before ++ after) st
  = bind (for_companies fuel auth_token start_str end_str before)
         (fun _ => for_companies fuel auth_token start_str end_str after) st.
Proof.
  revert st. induction before as [|c before IH]; intros st.
  - unfold bind. cbn.
    now destruct (for_companies fuel auth_token start_str end_str after st)
      as [tr fin []].
  - cbn [app for_companies]. rewrite bind_assoc.
    apply bind_ext. intros reviews st1. rewrite bind_assoc.
    apply bind_ext. intros _ st2. apply IH.
Qed.

Lemma bind_trace {A B : Type} (m : M A) (f : A -> M B) (st : state) :
  exists rest_events, trace (bind m f st) = trace (m st) ++ rest_events.
Proof.
  unfold bind. destruct (res (m st)) as [a| |]; cbn [trace].
  - now eexists.
  - exists []. now rewrite app_nil_r.
  - exists []. now rewrite app_nil_r.
Qed.

Lemma fetch_trace_head company auth_token offset batch_size (st : state) :
  exists rest_events,
    trace (fetch_g2_reviews company auth_token offset batch_size st)
    = EvRequest (mkRequest api_url company auth_token offset) :: rest_events.
Proof.
  destruct (http_get (world st) (mkRequest api_url company auth_token offset))
    as [w [resp|]] eqn:E.
  - rewrite (fetch_g2_reviews_eq _ _ _ _ _ _ _ E).
    destruct (status_code resp =? 200); now eexists.
  - rewrite (fetch_g2_reviews_no_response _ _ _ _ _ _ E). now eexists.
Qed.

(** A call of the collector with a window that parses and at least one
    turn prints its message and sends the request at offset 0. *)
Lemma collector_trace_head (fuel : nat)
      (company auth_token start_str end_str : string)
      (start_date end_date : datetime) (st : state) :
  fromisoformat start_str = Some start_date ->
  fromisoformat end_str = Some end_date ->
  exists rest_events,
    trace (fetch_reviews_in_date_range (S fuel) company auth_token
                                       start_str end_str st)
    = EvPrint (fetching_message company start_date end_date)
      :: EvRequest (mkRequest api_url company auth_token 0) :: rest_events.
Proof.
  intros Hs He.
  rewrite (fetch_reviews_in_date_range_eq _ _ _ _ _ _ _ _ Hs He).
  cbn zeta. cbn [trace]. rewrite while_true_turn. unfold turn.
  destruct (fetch_trace_head company auth_token 0 default_batch_size st)
    as [r Hr].
  set (o := fetch_g2_reviews company auth_token 0 default_batch_size st) in *.
  destruct (res o) as [reviews| |]; cbn [trace]; rewrite ?Hr;
    try (now eexists).
  destruct (falsy reviews); cbn [trace]; rewrite ?Hr; try (now eexists).
  destruct (for_reviews company start_date end_date (items reviews) []);
    cbn [trace]; rewrite ?Hr; now eexists.
Qed.

(** C4. When the start date typed in is strictly after the end date typed
    in and not after today, [main] prints that the start date must be
    before the end date and returns: it sends no request, writes no file
    and prints nothing else. *)
Theorem inverted_window_aborts (today : date) (fuel : nat) (st : state)
        (l1 l2 l3 l4 : string) (rest : list string) (sdt edt : datetime) :
  stdin st = l1 :: l2 :: l3 :: l4 :: rest ->
  fromisoformat (PyStr.strip l3) = Some sdt ->
  fromisoformat (PyStr.strip l4) = Some edt ->
  Date.gt (Datetime.date_of sdt) (Datetime.date_of edt) = true ->
  Date.gt (Datetime.date_of sdt) today = false ->
  let run := main today fuel st in
  run = mkOutcome (prompts ++ [EvPrint msg_inverted])
                  (mkState (world st) rest) (Val tt)
  /\ requested_offsets (trace run) = []
  /\ written_files (trace run) = []
  /\ printed (trace run) = [msg_inverted].
Proof.
  intros Hin Hs He Hinv Htoday run.
  assert (E : run = mkOutcome (prompts ++ [EvPrint msg_inverted])
                              (mkState (world st) rest) (Val tt)).
  { subst run. rewrite (main_eq today fuel st l1 l2 l3 l4 rest Hin), Hs, He.
    unfold validated. rewrite Htoday.
    destruct (Date.gt (Datetime.date_of edt) today) eqn:Hend.
    - exfalso. unfold Date.gt in *.
      rewrite (date_lt_trans _ _ _ Hend Hinv) in Htoday. discriminate.
    - now rewrite Hinv. }
  rewrite E. repeat split.
Qed.

(** C7. When the end date typed in is strictly after today and the start
    date is not, [main] prints the warning and goes on to the loop over the
    companies with the window from the start date to today: neither
    refusal is printed.  Every company of the list is then reached in its
    turn: once the companies before it have been processed, the collector
    is called for it with that window, which (the window strings parsing,
    with at least one turn) prints its message and sends the request at
    offset 0 for that company.  When all the companies have been processed
    the run returns after the completion message. *)
Theorem future_end_is_clamped (today : date) (fuel : nat) (st : state)
        (l1 l2 l3 l4 : string) (rest : list string) (sdt edt : datetime) :
  stdin st = l1 :: l2 :: l3 :: l4 :: rest ->
  fromisoformat (PyStr.strip l3) = Some sdt ->
  fromisoformat (PyStr.strip l4) = Some edt ->
  Date.gt (Datetime.date_of edt) today = true ->
  Date.gt (Datetime.date_of sdt) today = false ->
  let start_str := Date.isoformat (Datetime.date_of sdt) in
  let today_str := Date.isoformat today in
  let auth_token := PyStr.strip l2 in
  let st' := mkState (world st) rest in
  let run := main today fuel st in
  (let o := bind (for_companies fuel auth_token start_str today_str
                                (parse_companies l1))
                 (fun _ => print msg_done) st' in
   run = mkOutcome (prompts ++ EvPrint msg_future_end :: trace o)
                   (final o) (res o))
  /\ (forall before company after,
        parse_companies l1 = before ++ company :: after ->
        let o1 := for_companies fuel auth_token start_str today_str
                                before st' in
        res o1 = Val tt ->
        let oc := fetch_reviews_in_date_range fuel company auth_token
                                              start_str today_str (final o1) in
        (exists rest_events,
            trace run = prompts ++ EvPrint msg_future_end
                                :: trace o1 ++ trace oc ++ rest_events)
        /\ (forall start_date end_date,
              fromisoformat start_str = Some start_date ->
              fromisoformat today_str = Some end_date ->
              (0 < fuel)%nat ->
              In (EvPrint (fetching_message company start_date end_date))
                 (trace run)
              /\ In (EvRequest (mkRequest api_url company auth_token 0))
                    (trace run)))
  /\ (res (for_companies fuel auth_token start_str today_str
                         (parse_companies l1) st') = Val tt ->
      res run = Val tt
      /\ exists events, trace run = events ++ [EvPrint msg_done]).
Proof.
  intros Hin Hs He Hend Hstart start_str today_str auth_token st' run.
  assert (Hrun : run = mkOutcome
                         (prompts ++ EvPrint msg_future_end
                            :: trace (bind (for_companies fuel auth_token
                                              start_str today_str
                                              (parse_companies l1))
                                           (fun _ => print msg_done) st'))
                         (final (bind (for_companies fuel auth_token
                                         start_str today_str
                                         (parse_companies l1))
                                      (fun _ => print msg_done) st'))
                         (res (bind (for_companies fuel auth_token
                                       start_str today_str
                                       (parse_companies l1))
                                    (fun _ => print msg_done) st'))).
  { subst run. rewrite (main_eq today fuel st l1 l2 l3 l4 rest Hin), Hs, He.
    unfold validated. now rewrite Hstart, Hend, Hstart. }
  split; [exact Hrun|]. split.
  - intros before company after Hcs o1 H1 oc.
    assert (Htrace : exists rest_events,
               trace run = prompts ++ EvPrint msg_future_end
                                   :: trace o1 ++ trace oc ++ rest_events).
    { rewrite Hrun. cbn [trace].
      destruct (bind_trace (for_companies fuel auth_token start_str today_str
                                          (parse_companies l1))
                           (fun _ => print msg_done) st') as [r1 ->].
      rewrite Hcs, for_companies_app. unfold bind at 1. fold o1. rewrite H1.
      cbn [trace for_companies].
      destruct (bind_trace
                  (fetch_reviews_in_date_range fuel company auth_token
                                               start_str today_str)
                  (fun reviews =>
                     bind (if is_nil reviews
                           then print (no_reviews_message company)
                           else save_reviews company reviews)
                          (fun _ => for_companies fuel auth_token start_str
                                                  today_str after))
                  (final o1)) as [r2 ->].
      fold oc. exists (r2 ++ r1). now rewrite <- !app_assoc. }
    split; [exact Htrace|].
    intros start_date end_date Hsd Hed Hfuel.
    destruct Htrace as [r Hr]. rewrite Hr.
    destruct fuel as [|fuel']; [lia|].
    destruct (collector_trace_head fuel' company auth_token start_str
                today_str start_date end_date (final o1) Hsd Hed) as [r' Hr'].
    fold oc in Hr'. rewrite Hr'.
    split; apply in_or_app; right; right; apply in_or_app; right;
      cbn; auto.
  - intros Hall. rewrite Hrun. cbn [trace res]. unfold bind. rewrite Hall.
    cbn [trace res print]. split; [reflexivity|].
    exists (prompts ++ EvPrint msg_future_end
              :: trace (for_companies fuel auth_token start_str today_str
                                      (parse_companies l1) st')).
    now rewrite <- app_assoc.
Qed.

(** C8. When the start date or the end date typed in does not parse,
    [main] ends in the [ValueError] of the parser right after the four
    prompts: nothing is printed, no request is sent and no file is
    written. *)
Theorem invalid_date_is_fatal (today : date) (fuel : nat) (st : state)
        (l1 l2 l3 l4 : string) (rest : list string) :
  stdin st = l1 :: l2 :: l3 :: l4 :: rest ->
  fromisoformat (PyStr.strip l3) = None
  \/ fromisoformat (PyStr.strip l4) = None ->
  let run := main today fuel st in
  run = mkOutcome prompts (mkState (world st) rest) (Raised ValueError)
  /\ printed (trace run) = []
  /\ requested_offsets (trace run) = []
  /\ written_files (trace run) = [].
Proof.
  intros Hin Hbad run.
  assert (E : run = mkOutcome prompts (mkState (world st) rest)
                              (Raised ValueError)).
  { subst run. rewrite (main_eq today fuel st l1 l2 l3 l4 rest Hin).
    destruct Hbad as [-> | ->]; [reflexivity|].
    now destruct (fromisoformat (PyStr.strip l3)). }
  rewrite E. repeat split.
Qed.

(** C10. When the company line holds only commas and whitespace the list
    of companies is empty, and once the dates have passed validation
    [main] prints the completion message and returns: apart from the
    warning about a future end date, nothing else is printed, no request is
    sent and no file is written. *)
Theorem blank_company_list (today : date) (fuel : nat) (st : state)
        (l1 l2 l3 l4 : string) (rest : list string) (sdt edt : datetime) :
  stdin st = l1 :: l2 :: l3 :: l4 :: rest ->
  PyStr.all_chars (fun c => PyStr.is_comma c || PyStr.is_space c) l1 = true ->
  fromisoformat (PyStr.strip l3) = Some sdt ->
  fromisoformat (PyStr.strip l4) = Some edt ->
  Date.gt (Datetime.date_of sdt) today = false ->
  Date.gt (Datetime.date_of sdt)
          (if Date.gt (Datetime.date_of edt) today then today
           else Datetime.date_of edt) = false ->
  let warn := if Date.gt (Datetime.date_of edt) today
              then [msg_future_end] else [] in
  let run := main today fuel st in
  parse_companies l1 = []
  /\ run = mkOutcome (prompts ++ map EvPrint warn ++ [EvPrint msg_done])
                     (mkState (world st) rest) (Val tt)
  /\ requested_offsets (trace run) = []
  /\ written_files (trace run) = []
  /\ printed (trace run) = warn ++ [msg_done].
Proof.
  intros Hin Hblank Hs He Hstart Hwin warn run.
  pose proof (parse_companies_blank l1 Hblank) as Hnil.
  assert (E : run = mkOutcome (prompts ++ map EvPrint warn ++ [EvPrint msg_done])
                              (mkState (world st) rest) (Val tt)).
  { subst run warn.
    rewrite (main_eq today fuel st l1 l2 l3 l4 rest Hin), Hs, He, Hnil.
    rewrite (validated_window _ _ _ Hstart Hwin).
    destruct (Date.gt (Datetime.date_of edt) today); reflexivity. }
  split; [exact Hnil|]. rewrite E. subst warn.
  destruct (Date.gt (Datetime.date_of edt) today); repeat split.
Qed.

(** C9. A review whose [datetime] string parses to an aware value is not
    skipped, filtered or kept: the window [main] hands to the collector is
    naive, the comparison with [start_date] raises [TypeError] outside the
    guarded parse, and the exception ends the whole run: no file is written
    for the company, the companies after it are not processed and the
    completion message is not printed. *)
Theorem aware_review_aborts_run (today : date) (fuel : nat) (st : state)
        (l1 l2 l3 l4 : string) (rest : list string) (sdt edt : datetime)
        (company : string) (others : list string)
        (start_date end_date : datetime)
        (page r : json) (pre post : list json) (acc : list review)
        (review_date : datetime) :
  stdin st = l1 :: l2 :: l3 :: l4 :: rest ->
  fromisoformat (PyStr.strip l3) = Some sdt ->
  fromisoformat (PyStr.strip l4) = Some edt ->
  let start_day := Datetime.date_of sdt in
  let end_day := if Date.gt (Datetime.date_of edt) today then today
                 else Datetime.date_of edt in
  let warn := if Date.gt (Datetime.date_of edt) today
              then [msg_future_end] else [] in
  Date.gt start_day today = false ->
  Date.gt start_day end_day = false ->
  parse_companies l1 = company :: others ->
  fromisoformat (Date.isoformat start_day) = Some start_date ->
  fromisoformat (Date.isoformat end_day) = Some end_date ->
  Datetime.naive start_date ->
  let o := fetch_g2_reviews company (PyStr.strip l2) 0 default_batch_size
                            (mkState (world st) rest) in
  res o = Val page ->
  items page = pre ++ r :: post ->
  for_reviews company start_date end_date pre [] = Next acc ->
  try_isoparse r = Some review_date ->
  Datetime.aware review_date ->
  main today (S fuel) st
  = mkOutcome (prompts ++ map EvPrint warn
                 ++ EvPrint (fetching_message company start_date end_date)
                 :: trace o)
              (final o) (Raised TypeError).
Proof.
  intros Hin Hs He start_day end_day warn Htoday Hwin Hcs Hstart Hend Hnaive
         o Hres Hitems Hpre Hparse Haware.
  subst start_day end_day warn.
  rewrite (main_eq today (S fuel) st l1 l2 l3 l4 rest Hin), Hs, He.
  rewrite (validated_window _ _ _ Htoday Hwin), Hcs. cbn zeta.
  pose proof (aware_review_raises company (PyStr.strip l2) start_date end_date
                fuel [] acc 0 (mkState (world st) rest) page r pre post
                review_date Hnaive Hres Hitems Hpre Hparse Haware) as Hloop.
  pose proof (fetch_reviews_in_date_range_eq (S fuel) company (PyStr.strip l2)
                _ _ start_date end_date (mkState (world st) rest) Hstart Hend)
    as Hcoll.
  rewrite Hloop in Hcoll. cbn zeta in Hcoll. cbn [trace final res] in Hcoll.
  pose proof (for_companies_raised (S fuel) (PyStr.strip l2)
                (Date.isoformat (Datetime.date_of sdt))
                (Date.isoformat
                   (if Date.gt (Datetime.date_of edt) today then today
                    else Datetime.date_of edt))
                company others (mkState (world st) rest) TypeError) as Hfor.
  cbn zeta in Hfor. rewrite Hcoll in Hfor. specialize (Hfor eq_refl).
  cbn [trace final res] in Hfor.
  unfold bind. rewrite Hfor. reflexivity.
Qed.

End Driver.

Lemma early_return_on_older_review_witness :
  @while_true (Reference.platform Scenario.descending) 1 "notion" "tok"
              Scenario.window_start Scenario.window_end [] 0
              (Reference.start Scenario.descending [])
  = mkOutcome [EvRequest (mkRequest api_url "notion" "tok" 0)]
              (Reference.start Scenario.descending [])
              (Val [Scenario.kept_inside]).
Proof.
  exact (@early_return_on_older_review
           (Reference.platform Scenario.descending) "notion" "tok"
           Scenario.window_start Scenario.window_end
           0 [] [Scenario.kept_inside] 0
           (Reference.start Scenario.descending [])
           (JList [Scenario.newer; Scenario.inside; Scenario.older])
           Scenario.older [Scenario.newer; Scenario.inside] []
           (Datetime.midnight (mkDate 2024 5 1))
           eq_refl eq_refl eq_refl eq_refl eq_refl).
Defined.

Lemma later_review_is_dropped_witness :
  @for_body (Reference.platform Scenario.descending) "notion"
            Scenario.window_start Scenario.window_end [] Scenario.newer
  = Next [].
Proof.
  exact (proj1 (@later_review_is_dropped
                  (Reference.platform Scenario.descending) "notion" "tok"
                  Scenario.window_start Scenario.window_end
                  [] Scenario.newer
                  (mkDatetime 2024 6 10 8 0 0 0 None)
                  eq_refl eq_refl eq_refl eq_refl eq_refl)).
Defined.

Lemma offset_strictly_increases_witness :
  StronglySorted Z.lt [0; 2]
  /\ 0 < 0 + len (JList [Scenario.newer; Scenario.inside]).
Proof.
  split.
  - exact (proj1 (@offset_strictly_increases
                    (Reference.platform Scenario.two_a_page) "notion" "tok"
                    Scenario.window_start Scenario.window_end
                    5 [] 0 (Reference.start Scenario.two_a_page []))).
  - exact (proj1 (proj2
             (proj2 (proj2 (@offset_strictly_increases
                              (Reference.platform Scenario.two_a_page)
                              "notion" "tok"
                              Scenario.window_start Scenario.window_end
                              5 [] 0 (Reference.start Scenario.two_a_page [])))
                    (JList [Scenario.newer; Scenario.inside])
                    [Scenario.kept_inside] eq_refl eq_refl eq_refl))).
Defined.

Lemma inverted_window_aborts_witness :
  @main (Reference.platform Scenario.descending) Scenario.today 3
        (Reference.start Scenario.descending
           (Scenario.typed "notion" "2024-06-10" "2024-06-01"))
  = mkOutcome (prompts ++ [EvPrint msg_inverted])
              (Reference.start Scenario.descending []) (Val tt).
Proof.
  exact (proj1 (@inverted_window_aborts
                  (Reference.platform Scenario.descending) Scenario.today 3
                  (Reference.start Scenario.descending
                     (Scenario.typed "notion" "2024-06-10" "2024-06-01"))
                  "notion" "tok" "2024-06-10" "2024-06-01" []
                  (Datetime.midnight (mkDate 2024 6 10))
                  (Datetime.midnight (mkDate 2024 6 1))
                  eq_refl eq_refl eq_refl eq_refl eq_refl)).
Defined.

Lemma future_end_is_clamped_witness :
  In (EvRequest (mkRequest api_url "jira" "tok" 0))
     (trace (@main (Reference.platform Scenario.descending)
                   Scenario.today 3
                   (Reference.start Scenario.descending
                      (Scenario.typed "notion, jira"
                                      "2024-06-01" "2024-07-01")))).
Proof.
  apply (proj2 (proj1 (proj2
          (@future_end_is_clamped
             (Reference.platform Scenario.descending) Scenario.today 3
             (Reference.start Scenario.descending
                (Scenario.typed "notion, jira" "2024-06-01" "2024-07-01"))
             "notion, jira" "tok" "2024-06-01" "2024-07-01" []
             (Datetime.midnight (mkDate 2024 6 1))
             (Datetime.midnight (mkDate 2024 7 1))
             eq_refl eq_refl eq_refl eq_refl eq_refl))
          ["notion"] "jira" [] eq_refl eq_refl)
          (Datetime.midnight (mkDate 2024 6 1))
          (Datetime.midnight (mkDate 2024 6 30)) eq_refl eq_refl).
  lia.
Defined.

Lemma invalid_date_is_fatal_witness :
  @main (Reference.platform Scenario.descending) Scenario.today 3
        (Reference.start Scenario.descending
           (Scenario.typed "notion" "yesterday" "2024-06-08"))
  = mkOutcome prompts (Reference.start Scenario.descending [])
              (Raised ValueError).
Proof.
  exact (proj1 (@invalid_date_is_fatal
                  (Reference.platform Scenario.descending) Scenario.today 3
                  (Reference.start Scenario.descending
                     (Scenario.typed "notion" "yesterday" "2024-06-08"))
                  "notion" "tok" "yesterday" "2024-06-08" []
                  eq_refl (or_introl eq_refl))).
Defined.

Lemma blank_company_list_witness :
  @main (Reference.platform Scenario.descending) Scenario.today 3
        (Reference.start Scenario.descending
           (Scenario.typed MoreScenarios.blank_line "2024-06-01" "2024-06-08"))
  = mkOutcome (prompts ++ [EvPrint msg_done])
              (Reference.start Scenario.descending []) (Val tt).
Proof.
  exact (proj1 (proj2
           (@blank_company_list
              (Reference.platform Scenario.descending) Scenario.today 3
              (Reference.start Scenario.descending
                 (Scenario.typed MoreScenarios.blank_line
                                 "2024-06-01" "2024-06-08"))
              MoreScenarios.blank_line "tok" "2024-06-01" "2024-06-08" []
              (Datetime.midnight (mkDate 2024 6 1))
              (Datetime.midnight (mkDate 2024 6 8))
              eq_refl eq_refl eq_refl eq_refl eq_refl eq_refl))).
Defined.

Lemma aware_review_aborts_run_witness :
  @main (Reference.platform Scenario.offset_server) Scenario.today 1
        (Reference.start Scenario.offset_server
           (Scenario.typed "notion, jira" "2024-06-01" "2024-06-08"))
  = mkOutcome
      (prompts
         ++ [EvPrint (PyStr.nl ++ "Fetching reviews for notion from 2024-06-01 to 2024-06-08...")%string;
             EvRequest (mkRequest api_url "notion" "tok" 0)])
      (Reference.start Scenario.offset_server []) (Raised TypeError).
Proof.
  exact (@aware_review_aborts_run
           (Reference.platform Scenario.offset_server) Scenario.today 0
           (Reference.start Scenario.offset_server
              (Scenario.typed "notion, jira" "2024-06-01" "2024-06-08"))
           "notion, jira" "tok" "2024-06-01" "2024-06-08" []
           (Datetime.midnight (mkDate 2024 6 1))
           (Datetime.midnight (mkDate 2024 6 8))
           "notion" ["jira"]
           Scenario.window_start Scenario.window_end
           (JList [Scenario.with_offset]) Scenario.with_offset [] [] []
           (mkDatetime 2024 6 5 10 0 0 0 (Some 0))
           eq_refl eq_refl eq_refl eq_refl eq_refl eq_refl eq_refl eq_refl
           eq_refl eq_refl eq_refl eq_refl eq_refl
           (fun H => match H in _ = o return
                             match o with None => False | Some _ => True end
                     with eq_refl => I end)).
Defined.

(** ** The end of the window *)

Lemma datetime_le_not_lt (a b : datetime) :
  Datetime.le a b = Some true -> Datetime.lt b a = Some false.
Proof.
  unfold Datetime.lt, Datetime.le, Datetime.cmp.
  destruct (tzinfo a) as [oa|], (tzinfo b) as [ob|]; cbn; try discriminate.
  - rewrite (Z.eqb_sym ob oa). destruct (oa =? ob); cbn.
    + rewrite (lex_compare_opp (Datetime.key a) (Datetime.key b)).
      destruct (lex_compare (Datetime.key a) (Datetime.key b)); cbn; congruence.
    + rewrite (Z.compare_antisym (Datetime.utc_micros a oa)).
      destruct (Datetime.utc_micros a oa ?= Datetime.utc_micros b ob); cbn;
        congruence.
  - rewrite (lex_compare_opp (Datetime.key a) (Datetime.key b)).
    destruct (lex_compare (Datetime.key a) (Datetime.key b)); cbn; congruence.
Qed.

(** A time of day other than midnight puts a naive date-time after the
    midnight of its own day. *)
Lemma after_own_midnight (t : datetime) :
  Datetime.naive t ->
  0 <= hour t -> 0 <= minute t -> 0 <= second t -> 0 <= microsecond t ->
  0 < hour t + minute t + second t + microsecond t ->
  Datetime.le t (Datetime.midnight (Datetime.date_of t)) = Some false.
Proof.
  unfold Datetime.naive, Datetime.le, Datetime.cmp. intros -> Hh Hm Hs Hu Hpos.
  cbn [Datetime.midnight tzinfo option_map]. do 2 f_equal.
  unfold Datetime.key, Datetime.midnight, Datetime.date_of.
  cbn [year month day hour minute second microsecond d_year d_month d_day
       lex_compare].
  rewrite !Z.compare_refl.
  destruct (Z.compare_spec (hour t) 0) as [E1|?|?]; try reflexivity; [|lia].
  destruct (Z.compare_spec (minute t) 0) as [E2|?|?]; try reflexivity; [|lia].
  destruct (Z.compare_spec (second t) 0) as [E3|?|?]; try reflexivity; [|lia].
  destruct (Z.compare_spec (microsecond t) 0) as [E4|?|?]; try reflexivity; lia.
Qed.

Section WindowEnd.

Context {P : Platform}.

Variables (company : string) (start_date end_date : datetime).

(** What the code keeps: a review whose date-time compares within
    [start_date] and [end_date] is appended, its date formatted by
    [strftime]. *)
Lemma review_between_is_kept (acc : list review) (r : json)
      (review_date : datetime) :
  try_isoparse r = Some review_date ->
  Datetime.le start_date review_date = Some true ->
  Datetime.le review_date end_date = Some true ->
  for_body company start_date end_date acc r
  = Next (acc ++ [normalize company r review_date])
  /\ r_date (normalize company r review_date)
     = Datetime.strftime_ymd review_date.
Proof.
  intros Hparse Hlo Hhi. unfold for_body.
  now rewrite Hparse, (datetime_le_not_lt _ _ Hlo), Hlo, Hhi.
Qed.

(** What the code does on the last day of the window: with [end_date] the
    midnight that starts that day, a review written later that day is never
    appended. *)
Lemma end_day_review_is_not_kept (acc : list review) (r : json)
      (review_date : datetime) :
  try_isoparse r = Some review_date ->
  Datetime.naive review_date ->
  end_date = Datetime.midnight (Datetime.date_of review_date) ->
  0 <= hour review_date -> 0 <= minute review_date ->
  0 <= second review_date -> 0 <= microsecond review_date ->
  0 < hour review_date + minute review_date + second review_date
      + microsecond review_date ->
  for_body company start_date end_date acc r
  <> Next (acc ++ [normalize company r review_date]).
Proof.
  intros Hparse Hn -> Hh Hm Hs Hu Hpos. unfold for_body. rewrite Hparse.
  rewrite (after_own_midnight review_date Hn Hh Hm Hs Hu Hpos).
  assert (Hne : acc <> acc ++ [normalize company r review_date]).
  { intros E. apply (f_equal (@List.length _)) in E.
    rewrite length_app in E. cbn in E. lia. }
  destruct (Datetime.lt review_date start_date) as [[]|]; try discriminate.
  destruct (Datetime.le start_date review_date) as [[]|]; try discriminate;
    congruence.
Qed.

End WindowEnd.

(** C1. The code at the failing input.  The window typed in is 2024-06-01
    to 2024-06-08 and the only review of the company is dated
    2024-06-08T10:30:00: its timestamp parses, its calendar date is the end
    date and is not before the start date, and yet the collector returns no
    review and the run writes no file. *)
Theorem review_on_end_date_is_lost :
  let P := Reference.platform Scenario.last_day_server in
  let st := Reference.start Scenario.last_day_server
              (Scenario.typed "notion" "2024-06-01" "2024-06-08") in
  option_map Datetime.strftime_ymd (@try_isoparse P Scenario.last_day)
  = Some "2024-06-08"
  /\ res (@fetch_reviews_in_date_range P 3 "notion" "tok"
            "2024-06-01" "2024-06-08"
            (Reference.start Scenario.last_day_server []))
     = Val []
  /\ written_files (trace (@main P Scenario.today 3 st)) = []
  /\ printed (trace (@main P Scenario.today 3 st))
     = [(PyStr.nl ++ "Fetching reviews for notion from 2024-06-01 to 2024-06-08...")%string;
        "No reviews found for notion in this date range.";
        msg_done]
  /\ res (@main P Scenario.today 3 st) = Val tt.
Proof. cbn zeta. repeat split. Qed.

(** ** Runs of the whole program *)

(** One page of three reviews dated 2024-01-15, 2024-01-20 and 2023-12-20,
    window January 2024: the two reviews of January are written, in the
    order of the page, after a single request. *)
Example january_run :
  let run := @main (Reference.platform Scenario.january_server)
                   Scenario.today 3
                   (Reference.start Scenario.january_server
                      (Scenario.typed "notion" "2024-01-01" "2024-01-31")) in
  requested_offsets (trace run) = [0]
  /\ written_files (trace run) = ["output/notion_g2_reviews.json"]
  /\ printed (trace run)
     = [(PyStr.nl ++ "Fetching reviews for notion from 2024-01-01 to 2024-01-31...")%string;
        "Saved 2 reviews to output/notion_g2_reviews.json";
        msg_done]
  /\ res run = Val tt.
Proof. cbn zeta. repeat split. Qed.

(** Status 500 on the first page of every company: a diagnostic and the
    no-reviews message for each, no file, and the run completes. *)
Example server_error_run :
  let run := @main (Reference.platform Scenario.failing_server)
                   Scenario.today 3
                   (Reference.start Scenario.failing_server
                      (Scenario.typed "notion, jira" "2024-06-01" "2024-06-08")) in
  requested_offsets (trace run) = [0; 0]
  /\ written_files (trace run) = []
  /\ printed (trace run)
     = [(PyStr.nl ++ "Fetching reviews for notion from 2024-06-01 to 2024-06-08...")%string;
        "API Error for notion: 500 Internal Server Error";
        "No reviews found for notion in this date range.";
        (PyStr.nl ++ "Fetching reviews for jira from 2024-06-01 to 2024-06-08...")%string;
        "API Error for jira: 500 Internal Server Error";
        "No reviews found for jira in this date range.";
        msg_done]
  /\ res run = Val tt.
Proof. cbn zeta. repeat split. Qed.

(* ------------------------------------------------------------------ *)
(** * Further properties *)
(* ------------------------------------------------------------------ *)

(** ** What the collector returns *)

Section CollectorResult.

Context {P : Platform}.

Variables (company auth_token : string) (start_date end_date : datetime).

Lemma for_body_cases (acc : list review) (r : json) :
  for_body company start_date end_date acc r = Next acc
  \/ for_body company start_date end_date acc r = Return acc
  \/ for_body company start_date end_date acc r = Throw TypeError
  \/ exists t, try_isoparse r = Some t
               /\ in_window start_date end_date t = true
               /\ for_body company start_date end_date acc r
                  = Next (acc ++ [normalize company r t]).
Proof.
  unfold for_body, in_window.
  destruct (try_isoparse r) as [t|]; [|now left].
  destruct (Datetime.lt t start_date) as [[]|]; auto.
  destruct (Datetime.le start_date t) as [[]|] eqn:Hlo; auto.
  destruct (Datetime.le t end_date) as [[]|] eqn:Hhi; auto.
  right. right. right. exists t. now rewrite Hlo, Hhi.
Qed.

Lemma for_reviews_extends (l : list json) (acc out : list review) :
  flow_result (for_reviews company start_date end_date l acc) = Val out ->
  exists added,
    out = acc ++ added
    /\ Forall (admissible company start_date end_date) added
    /\ (List.length added <= List.length l)%nat.
Proof.
  revert acc. induction l as [|r l IH]; intros acc; cbn.
  - intros [= <-]. exists []. rewrite app_nil_r. repeat split; auto.
  - destruct (for_body_cases acc r) as [E|[E|[E|(t & Hp & Hw & E)]]];
      rewrite E; cbn.
    + intros H. destruct (IH _ H) as (added & -> & Hall & Hlen).
      exists added. repeat split; auto.
    + intros [= <-]. exists []. rewrite app_nil_r. repeat split; auto. cbn. lia.
    + discriminate.
    + intros H. destruct (IH _ H) as (added & -> & Hall & Hlen).
      exists (normalize company r t :: added). rewrite <- app_assoc.
      repeat split; auto.
      * constructor; [|exact Hall]. now exists r, t.
      * cbn. lia.
Qed.

Lemma fetch_page_bound (offset : Z) (st : state) (page : json) :
  res (fetch_g2_reviews company auth_token offset default_batch_size st)
  = Val page ->
  len page <= 50.
Proof.
  destruct (http_get (world st) (mkRequest api_url company auth_token offset))
    as [w [resp|]] eqn:E.
  - rewrite (fetch_g2_reviews_eq _ _ _ _ _ _ _ E).
    destruct (status_code resp =? 200); cbn.
    + apply decoded_len. unfold default_batch_size. lia.
    + intros [= <-]. cbn. lia.
  - rewrite (fetch_g2_reviews_no_response _ _ _ _ _ _ E). discriminate.
Qed.

Lemma while_true_added (fuel : nat) (acc : list review) (offset : Z)
        (st : state) (out : list review) :
  let run := while_true fuel company auth_token start_date end_date
                        acc offset st in
  res run = Val out ->
  exists added,
    out = acc ++ added
    /\ Forall (admissible company start_date end_date) added
    /\ Forall (fun rv => r_source rv = "g2" /\ r_company rv = company) added
    /\ Z.of_nat (List.length added)
       <= 50 * Z.of_nat (List.length (requested_offsets (trace run))).
Proof.
  cbn zeta. revert acc offset st.
  assert (Hadm : forall added,
             Forall (admissible company start_date end_date) added ->
             Forall (fun rv => r_source rv = "g2" /\ r_company rv = company)
                    added).
  { intros added H. eapply Forall_impl; [|exact H].
    intros rv (r & t & _ & _ & ->). now split. }
  induction fuel as [|fuel IH]; intros acc offset st; [discriminate|].
  rewrite while_true_turn. unfold turn.
  pose proof (fetch_requests_once company auth_token offset
                                  default_batch_size st) as Hone.
  pose proof (fetch_page_bound offset st) as Hbound.
  set (o := fetch_g2_reviews company auth_token offset default_batch_size st)
    in *.
  destruct (res o) as [reviews| |]; try discriminate.
  specialize (Hbound reviews eq_refl).
  destruct (falsy reviews); cbn [res trace].
  { intros [= <-]. exists []. rewrite app_nil_r, Hone. cbn.
    repeat split; auto. lia. }
  pose proof (for_reviews_extends (items reviews) acc) as Hpage.
  unfold len in Hbound.
  destruct (for_reviews company start_date end_date (items reviews) acc)
    as [acc1|acc1|e]; cbn [res trace]; try discriminate.
  - destruct (Hpage acc1 eq_refl) as (a1 & -> & Hall1 & Hlen1).
    intros H. destruct (IH _ _ _ H) as (a2 & -> & Hall2 & _ & Hlen2).
    exists (a1 ++ a2). rewrite <- app_assoc.
    assert (Hall : Forall (admissible company start_date end_date) (a1 ++ a2))
      by (apply Forall_app; auto).
    repeat split; auto.
    rewrite requested_offsets_app, Hone, !length_app. cbn [List.length].
    lia.
  - intros [= <-]. destruct (Hpage acc1 eq_refl) as (a1 & -> & Hall1 & Hlen1).
    exists a1. rewrite Hone. cbn [List.length]. repeat split; auto. lia.
Qed.

Lemma for_reviews_from (Q : json -> Prop) (l : list json)
      (acc out : list review) :
  Forall Q l ->
  flow_result (for_reviews company start_date end_date l acc) = Val out ->
  exists added,
    out = acc ++ added
    /\ Forall (fun rv => exists r t,
                   Q r /\ try_isoparse r = Some t
                   /\ in_window start_date end_date t = true
                   /\ rv = normalize company r t) added.
Proof.
  intros HQ. revert acc. induction HQ as [|r l Hr _ IH]; intros acc; cbn.
  - intros [= <-]. exists []. now rewrite app_nil_r.
  - destruct (for_body_cases acc r) as [E|[E|[E|(t & Hp & Hw & E)]]];
      rewrite E; cbn.
    + apply IH.
    + intros [= <-]. exists []. now rewrite app_nil_r.
    + discriminate.
    + intros H. destruct (IH _ H) as (added & -> & Hall).
      exists (normalize company r t :: added). rewrite <- app_assoc.
      split; [reflexivity|]. constructor; [|exact Hall]. now exists r, t.
Qed.

Lemma while_true_from (fuel : nat) (acc : list review) (offset : Z)
      (st : state) (out : list review) :
  res (while_true fuel company auth_token start_date end_date acc offset st)
  = Val out ->
  exists added,
    out = acc ++ added
    /\ Forall (from_fetched company auth_token start_date end_date
                            fuel acc offset st) added.
Proof.
  revert acc offset st.
  induction fuel as [|fuel IH]; intros acc offset st; [discriminate|].
  rewrite while_true_turn. unfold turn.
  destruct (res (fetch_g2_reviews company auth_token offset
                                  default_batch_size st))
    as [page| |] eqn:Hres; try discriminate.
  destruct (falsy page) eqn:Hf; cbn [res].
  { intros [= <-]. exists []. now rewrite app_nil_r. }
  pose proof (for_reviews_from (fun r => In r (items page)) (items page) acc)
    as Hpage.
  assert (Hin : Forall (fun r => In r (items page)) (items page))
    by now apply Forall_forall.
  assert (Hhere : forall added,
             Forall (fun rv => exists r t,
                         In r (items page) /\ try_isoparse r = Some t
                         /\ in_window start_date end_date t = true
                         /\ rv = normalize company r t) added ->
             Forall (from_fetched company auth_token start_date end_date
                                  (S fuel) acc offset st) added).
  { intros added H. eapply Forall_impl; [|exact H].
    intros rv (r & t & Hr & Hp & Hw & ->). exists r, t.
    repeat split; auto. now apply fetched_first with (page := page). }
  destruct (for_reviews company start_date end_date (items page) acc)
    as [acc1|acc1|e] eqn:Hfor; cbn [res]; try discriminate.
  - destruct (Hpage acc1 Hin eq_refl) as (a1 & -> & Hall1).
    intros H. destruct (IH _ _ _ H) as (a2 & -> & Hall2).
    exists (a1 ++ a2). rewrite <- app_assoc. split; [reflexivity|].
    apply Forall_app. split; [now apply Hhere|].
    eapply Forall_impl; [|exact Hall2].
    intros rv (r & t & Hr & Hp & Hw & ->). exists r, t.
    repeat split; auto.
    now apply fetched_later with (acc' := acc ++ a1) (page := page).
  - intros [= <-]. destruct (Hpage acc1 Hin eq_refl) as (a1 & -> & Hall1).
    exists a1. split; [reflexivity|now apply Hhere].
Qed.

(** X1. Whatever the collector loop returns is the accumulator it started
    from followed, in order, by records that were each made from a review
    of a page this run fetched, whose timestamp parsed to a date that
    passed both comparisons of the window; each carries the source [g2]
    and the company.  Nothing accumulated is dropped or reordered, and at
    most 50 records are added for every request sent. *)
Theorem while_true_extends (fuel : nat) (acc : list review) (offset : Z)
        (st : state) (out : list review) :
  let run := while_true fuel company auth_token start_date end_date
                        acc offset st in
  res run = Val out ->
  exists added,
    out = acc ++ added
    /\ Forall (from_fetched company auth_token start_date end_date
                            fuel acc offset st) added
    /\ Forall (admissible company start_date end_date) added
    /\ Forall (fun rv => r_source rv = "g2" /\ r_company rv = company) added
    /\ Z.of_nat (List.length added)
       <= 50 * Z.of_nat (List.length (requested_offsets (trace run))).
Proof.
  cbn zeta. intros H.
  destruct (while_true_added fuel acc offset st out H)
    as (added & -> & Hadm & Hsrc & Hlen).
  destruct (while_true_from fuel acc offset st _ H) as (added' & E & Hfrom).
  apply app_inv_head in E. subst added'.
  exists added. repeat split; auto.
Qed.

End CollectorResult.

(** ** Pages that end or pass the loop *)

Section Pages.

Context {P : Platform}.

Variables (company auth_token : string) (start_date end_date : datetime).

Lemma for_reviews_unparseable (l : list json) (acc : list review) :
  Forall (fun r => try_isoparse r = None) l ->
  for_reviews company start_date end_date l acc = Next acc.
Proof.
  induction 1 as [|r l Hr _ IH]; cbn; [reflexivity|].
  unfold for_body. now rewrite Hr.
Qed.

Lemma string_items_unparseable (s : string) :
  Forall (fun r => try_isoparse r = None) (items (JStr s)).
Proof.
  cbn. induction (list_ascii_of_string s) as [|c cs IH]; constructor; auto.
Qed.

(** X2. A page none of whose reviews has a timestamp that parses is passed
    over: the accumulator is unchanged and the loop goes on to the request
    at [offset + len(page)].  A page that is a JSON string rather than a
    list is such a page: its characters are iterated and skipped one by
    one. *)
Theorem unparseable_page_is_skipped (fuel : nat) (acc : list review)
        (offset : Z) (st : state) (page : json) :
  let o := fetch_g2_reviews company auth_token offset default_batch_size st in
  res o = Val page ->
  falsy page = false ->
  Forall (fun r => try_isoparse r = None) (items page)
  \/ (exists s, page = JStr s) ->
  let o' := while_true fuel company auth_token start_date end_date
                       acc (offset + len page) (final o) in
  while_true (S fuel) company auth_token start_date end_date acc offset st
  = mkOutcome (trace o ++ trace o') (final o') (res o').
Proof.
  intros o Hres Hf Hall o'. subst o o'.
  assert (H : Forall (fun r => try_isoparse r = None) (items page)).
  { destruct Hall as [H|[s ->]]; [exact H|apply string_items_unparseable]. }
  rewrite while_true_turn. unfold turn.
  now rewrite Hres, Hf, (for_reviews_unparseable _ _ H).
Qed.

(** X3. A response with a status other than 200, on whatever page it
    comes, ends the collection as an empty page does: the loop prints the
    diagnostic and returns the reviews accumulated so far as its value,
    after that one request. *)
Theorem error_page_ends_collection (fuel : nat) (acc : list review)
        (offset : Z) (st : state) (w : World) (resp : response) :
  http_get (world st) (mkRequest api_url company auth_token offset)
  = (w, Some resp) ->
  status_code resp <> 200 ->
  while_true (S fuel) company auth_token start_date end_date acc offset st
  = mkOutcome [EvRequest (mkRequest api_url company auth_token offset);
               EvPrint (api_error_message company resp)]
              (mkState w (stdin st)) (Val acc).
Proof.
  intros H Hs. rewrite while_true_turn.
  rewrite (fetch_g2_reviews_eq _ _ _ _ _ _ _ H).
  apply Z.eqb_neq in Hs. now rewrite Hs.
Qed.

(** X4. A 200 response whose JSON object has no [reviews] key, or an empty
    [reviews] list, ends the collection silently: the loop returns the
    reviews accumulated so far after that one request and prints
    nothing. *)
Theorem missing_reviews_ends_collection (fuel : nat) (acc : list review)
        (offset : Z) (st : state) (w : World) (resp : response)
        (kv : list (string * json)) :
  http_get (world st) (mkRequest api_url company auth_token offset)
  = (w, Some resp) ->
  status_code resp = 200 ->
  body_json resp = Some (JDict kv) ->
  assoc "reviews" kv = None \/ assoc "reviews" kv = Some (JList []) ->
  while_true (S fuel) company auth_token start_date end_date acc offset st
  = mkOutcome [EvRequest (mkRequest api_url company auth_token offset)]
              (mkState w (stdin st)) (Val acc).
Proof.
  intros H Hs Hb Hk. rewrite while_true_turn.
  rewrite (fetch_g2_reviews_eq _ _ _ _ _ _ _ H).
  apply Z.eqb_eq in Hs. rewrite Hs. unfold decoded, dict_get. rewrite Hb.
  destruct Hk as [-> | ->]; reflexivity.
Qed.

(** X5. Failures other than the status are not softened.  When
    [requests.get] gives no response, when the body of a 200 response is
    not JSON, when the JSON is not an object, or when [reviews] is neither
    a list nor a string, the loop ends in the exception right after the
    request; the reviews accumulated so far are not returned. *)
Theorem hard_failure_propagates (fuel : nat) (acc : list review)
        (offset : Z) (st : state) (w : World) :
  let q := mkRequest api_url company auth_token offset in
  let run := while_true (S fuel) company auth_token start_date end_date
                        acc offset st in
  (http_get (world st) q = (w, None) ->
   run = mkOutcome [EvRequest q] (mkState w (stdin st))
                   (Raised RequestException))
  /\ (forall resp,
        http_get (world st) q = (w, Some resp) ->
        status_code resp = 200 ->
        (body_json resp = None ->
         run = mkOutcome [EvRequest q] (mkState w (stdin st))
                         (Raised JSONDecodeError))
        /\ (forall v, body_json resp = Some v ->
                      (forall kv, v <> JDict kv) ->
                      run = mkOutcome [EvRequest q] (mkState w (stdin st))
                                      (Raised AttributeError))
        /\ (forall kv v, body_json resp = Some (JDict kv) ->
                         assoc "reviews" kv = Some v ->
                         (forall l, v <> JList l) ->
                         (forall s, v <> JStr s) ->
                         run = mkOutcome [EvRequest q] (mkState w (stdin st))
                                         (Raised TypeError))).
Proof.
  cbn zeta. split.
  - intros H. rewrite while_true_turn.
    now rewrite (fetch_g2_reviews_no_response _ _ _ _ _ _ H).
  - intros resp H Hs. apply Z.eqb_eq in Hs.
    rewrite while_true_turn, (fetch_g2_reviews_eq _ _ _ _ _ _ _ H), Hs.
    unfold decoded, dict_get. repeat split.
    + now intros ->.
    + intros v -> Hv. destruct v; try reflexivity. now destruct (Hv kv).
    + intros kv v -> -> Hl Hstr. destruct v; try reflexivity.
      * now destruct (Hstr s).
      * now destruct (Hl l).
Qed.

End Pages.

(** ** Paging through an API *)

Lemma naive_lt (a b : datetime) :
  Datetime.naive a -> Datetime.naive b ->
  Datetime.lt a b
  = Some (is_lt (lex_compare (Datetime.key a) (Datetime.key b))).
Proof. unfold Datetime.naive, Datetime.lt, Datetime.cmp. now intros -> ->. Qed.

Lemma naive_le (a b : datetime) :
  Datetime.naive a -> Datetime.naive b ->
  Datetime.le a b
  = Some (is_le (lex_compare (Datetime.key a) (Datetime.key b))).
Proof. unfold Datetime.naive, Datetime.le, Datetime.cmp. now intros -> ->. Qed.

Section Paging.

Context {P : Platform}.

Variables (company auth_token : string) (start_date end_date : datetime).

Lemma while_true_serves (all : list json) :
  serves company auth_token all ->
  forall (fuel o : nat) (acc : list review) (st : state),
    (List.length (skipn o all) < fuel)%nat ->
    res (while_true fuel company auth_token start_date end_date
                    acc (Z.of_nat o) st)
    = flow_result (for_reviews company start_date end_date (skipn o all) acc).
Proof.
  intros Hapi. induction fuel as [|fuel IH]; intros o acc st Hfuel; [lia|].
  destruct (Hapi (world st) o)
    as (w' & resp & kv & l & rest & Hget & Hs & Hb & Hk & Hskip & Hlast).
  rewrite while_true_turn, (fetch_g2_reviews_eq _ _ _ _ _ _ _ Hget).
  apply Z.eqb_eq in Hs. rewrite Hs. unfold decoded, dict_get, turn.
  rewrite Hb, Hk. cbn [res trace final]. unfold default_batch_size, slice_to.
  cbn [Z.leb Z.compare Z.to_nat]. change (Pos.to_nat 50) with 50%nat.
  assert (Hsplit : skipn o all = firstn 50 l ++ (skipn 50 l ++ rest))
    by now rewrite app_assoc, firstn_skipn.
  destruct (firstn 50 l) as [|r page] eqn:Hpage.
  - assert (l = []) by (destruct l; [reflexivity|discriminate]).
    subst l. rewrite Hskip, (Hlast eq_refl). reflexivity.
  - unfold falsy. cbn [items]. rewrite Hsplit, for_reviews_app.
    destruct (for_reviews company start_date end_date (r :: page) acc)
      as [acc1|acc1|e]; try reflexivity.
    cbn [res]. unfold len. cbn [items].
    rewrite <- Nat2Z.inj_add.
    assert (Hnext : skipn (o + List.length (r :: page)) all
                    = skipn 50 l ++ rest).
    { rewrite Nat.add_comm, <- skipn_skipn, Hsplit, skipn_app, skipn_all,
        Nat.sub_diag. reflexivity. }
    rewrite IH; rewrite Hnext; [reflexivity|].
    rewrite Hsplit, length_app in Hfuel. cbn [List.length] in Hfuel. lia.
Qed.

(** X6. Paging is transparent.  Against an API that holds the reviews
    [all] of the company and serves them by offset, whatever the size of
    its pages, the collector with enough turns returns what a single [for]
    loop over [all] gives: the pages are consumed in order without gap or
    overlap, and the loop ends on the first empty page. *)
Theorem paging_is_transparent (all : list json) (fuel : nat) (st : state) :
  serves company auth_token all ->
  (List.length all < fuel)%nat ->
  res (while_true fuel company auth_token start_date end_date [] 0 st)
  = flow_result (for_reviews company start_date end_date all []).
Proof.
  intros Hapi Hfuel.
  exact (while_true_serves all Hapi fuel 0%nat [] st Hfuel).
Qed.

Lemma kept_none (l : list json) :
  Datetime.naive start_date ->
  Forall (fun t => Datetime.lt t start_date = Some true) (dates l) ->
  kept company start_date end_date l = [].
Proof.
  intros Hs. induction l as [|r l IH]; [reflexivity|].
  unfold dates, kept. cbn [flat_map]. fold (dates l).
  fold (kept company start_date end_date l).
  destruct (try_isoparse r) as [t|]; [|exact IH].
  cbn [app]. intros H. inversion H as [|? ? Ht Hl]; subst.
  rewrite (IH Hl). unfold in_window.
  now rewrite (datetime_lt_flip _ _ Ht).
Qed.

Lemma descending_flow (l : list json) (acc : list review) :
  Datetime.naive start_date -> Datetime.naive end_date ->
  Forall Datetime.naive (dates l) ->
  StronglySorted (fun a b => Datetime.le b a = Some true) (dates l) ->
  flow_result (for_reviews company start_date end_date l acc)
  = Val (acc ++ kept company start_date end_date l).
Proof.
  intros Hs He Hn Hsorted. revert acc Hn Hsorted.
  induction l as [|r l IH]; intros acc Hn Hsorted.
  - cbn. now rewrite app_nil_r.
  - cbn [for_reviews]. unfold for_body.
    unfold dates in Hn, Hsorted. unfold kept.
    cbn [flat_map] in *. fold (dates l) in *.
    fold (kept company start_date end_date l).
    destruct (try_isoparse r) as [t|]; [|now apply IH].
    cbn [app] in *.
    inversion Hn as [|? ? Hnt Hnl]; subst.
    apply StronglySorted_inv in Hsorted as [Hsl Hle].
    rewrite (naive_lt t start_date Hnt Hs).
    destruct (is_lt (lex_compare (Datetime.key t) (Datetime.key start_date)))
      eqn:Hlt.
    + cbn. f_equal.
      assert (Hts : Datetime.lt t start_date = Some true)
        by now rewrite (naive_lt t start_date Hnt Hs), Hlt.
      unfold in_window. rewrite (datetime_lt_flip _ _ Hts).
      rewrite (kept_none l Hs); [now rewrite app_nil_r|].
      rewrite Forall_forall in *. intros t' Hin.
      destruct (datetime_naive_le_lt t' t start_date (Hnl _ Hin) Hnt
                                     (Hle _ Hin) Hts) as [H _].
      exact H.
    + assert (Hlo : Datetime.le start_date t = Some true).
      { rewrite (naive_le start_date t Hs Hnt). f_equal.
        rewrite (lex_compare_opp (Datetime.key t) (Datetime.key start_date)).
        destruct (lex_compare (Datetime.key t) (Datetime.key start_date));
          cbn in *; congruence. }
      unfold in_window. rewrite Hlo, (naive_le t end_date Hnt He).
      destruct (is_le (lex_compare (Datetime.key t) (Datetime.key end_date))).
      * rewrite (IH _ Hnl Hsl). now rewrite <- app_assoc.
      * now apply IH.
Qed.

(** X7. When the dates of the reviews are naive and come newest first,
    as the early return assumes, a [for] loop over them with a naive window
    misses nothing: it gives the accumulator followed by the record of
    every review whose date is in the window, in order. *)
Theorem descending_reviews_complete (l : list json) (acc : list review) :
  Datetime.naive start_date -> Datetime.naive end_date ->
  descending_dates (dates l) ->
  flow_result (for_reviews company start_date end_date l acc)
  = Val (acc ++ kept company start_date end_date l).
Proof.
  intros Hs He [Hn Hsorted]. now apply descending_flow.
Qed.

(** X8. Paging and the early return together: against an API that serves
    the reviews of the company newest first, the collector called with a
    naive window returns exactly the records of the reviews whose date is
    in the window, in the order the API holds them. *)
Theorem collector_complete (all : list json) (fuel : nat) (st : state) :
  serves company auth_token all ->
  Datetime.naive start_date -> Datetime.naive end_date ->
  descending_dates (dates all) ->
  (List.length all < fuel)%nat ->
  res (while_true fuel company auth_token start_date end_date [] 0 st)
  = Val (kept company start_date end_date all).
Proof.
  intros Hapi Hs He Hd Hfuel.
  pose proof (while_true_serves all Hapi fuel 0%nat [] st Hfuel) as H.
  cbn [Z.of_nat skipn] in H. rewrite H. clear H.
  destruct Hd as [Hn Hsorted].
  now apply descending_flow.
Qed.

End Paging.

(** ** The list of companies *)

Lemma all_chars_lstrip (p : ascii -> bool) (s : string) :
  PyStr.all_chars p s = true -> PyStr.all_chars p (PyStr.lstrip s) = true.
Proof.
  induction s as [|c s IH]; cbn; [reflexivity|].
  intros H. apply andb_prop in H as [Hc Hs].
  destruct (PyStr.is_space c); [auto|]. cbn. now rewrite Hc, Hs.
Qed.

Lemma all_chars_rstrip (p : ascii -> bool) (s : string) :
  PyStr.all_chars p s = true -> PyStr.all_chars p (PyStr.rstrip s) = true.
Proof.
  induction s as [|c s IH]; cbn; [reflexivity|].
  intros H. apply andb_prop in H as [Hc Hs].
  destruct (PyStr.is_space c && PyStr.is_empty (PyStr.rstrip s));
    [reflexivity|]. cbn. now rewrite Hc, IH.
Qed.

Lemma all_chars_strip (p : ascii -> bool) (s : string) :
  PyStr.all_chars p s = true -> PyStr.all_chars p (PyStr.strip s) = true.
Proof. intros H. now apply all_chars_rstrip, all_chars_lstrip. Qed.

Lemma lstrip_head (s : string) :
  PyStr.lstrip s = EmptyString
  \/ exists c t, PyStr.lstrip s = String c t /\ PyStr.is_space c = false.
Proof.
  induction s as [|c s IH]; cbn; [now left|].
  destruct (PyStr.is_space c) eqn:E; [exact IH|].
  right. now exists c, s.
Qed.

Lemma rstrip_idempotent (s : string) :
  PyStr.rstrip (PyStr.rstrip s) = PyStr.rstrip s.
Proof.
  induction s as [|c s IH]; cbn; [reflexivity|].
  destruct (PyStr.is_space c && PyStr.is_empty (PyStr.rstrip s)) eqn:E;
    [reflexivity|].
  cbn. now rewrite IH, E.
Qed.

Lemma strip_idempotent (s : string) :
  PyStr.strip (PyStr.strip s) = PyStr.strip s.
Proof.
  unfold PyStr.strip.
  destruct (lstrip_head s) as [-> | (c & t & -> & Hc)]; [reflexivity|].
  cbn [PyStr.rstrip]. rewrite Hc. cbn [andb PyStr.lstrip]. rewrite Hc.
  cbn [PyStr.rstrip]. now rewrite Hc, rstrip_idempotent.
Qed.

Lemma split_comma_pieces (s : string) :
  Forall (fun piece => PyStr.all_chars not_comma piece = true)
         (PyStr.split_comma s).
Proof.
  induction s as [|c s IH]; cbn; [now repeat constructor|].
  destruct (PyStr.is_comma c) eqn:E.
  - constructor; [reflexivity|exact IH].
  - destruct (PyStr.split_comma s) as [|h t].
    + repeat constructor. cbn. unfold not_comma. now rewrite E.
    + inversion IH as [|? ? Hh Ht]; subst. constructor; [|exact Ht].
      cbn. unfold not_comma at 1. now rewrite E, Hh.
Qed.

(** X9. Every slug in the list of companies is non-empty, has no
    whitespace at either end (stripping it again changes nothing) and
    contains no comma. *)
Theorem parse_companies_clean (companies_input : string) :
  Forall (fun c => c <> EmptyString
                   /\ PyStr.strip c = c
                   /\ PyStr.all_chars not_comma c = true)
         (parse_companies companies_input).
Proof.
  unfold parse_companies.
  pose proof (split_comma_pieces companies_input) as H.
  induction H as [|piece l Hp _ IH]; cbn; [constructor|].
  destruct (PyStr.strip piece) eqn:E; cbn; [exact IH|].
  constructor; [|exact IH]. rewrite E. repeat split.
  - discriminate.
  - rewrite <- E. apply strip_idempotent.
  - rewrite <- E. now apply all_chars_strip.
Qed.

Lemma split_comma_single (x : string) :
  PyStr.all_chars not_comma x = true -> PyStr.split_comma x = [x].
Proof.
  induction x as [|c x IH]; cbn; [reflexivity|].
  intros H. apply andb_prop in H as [Hc Hx]. unfold not_comma in Hc.
  apply negb_true_iff in Hc. now rewrite Hc, (IH Hx).
Qed.

Lemma split_comma_app (x y : string) :
  PyStr.all_chars not_comma x = true ->
  PyStr.split_comma (x ++ String ","%char y) = x :: PyStr.split_comma y.
Proof.
  induction x as [|c x IH]; cbn; [reflexivity|].
  intros H. apply andb_prop in H as [Hc Hx]. unfold not_comma in Hc.
  apply negb_true_iff in Hc. now rewrite Hc, (IH Hx).
Qed.

Lemma split_comma_join (pieces : list string) :
  Forall (fun p => PyStr.all_chars not_comma p = true) pieces ->
  PyStr.split_comma (join_comma pieces)
  = match pieces with [] => [EmptyString] | _ :: _ => pieces end.
Proof.
  induction 1 as [|p l Hp Hl IH]; [reflexivity|].
  unfold join_comma in *. cbn [String.concat].
  destruct l as [|p' l']; [now apply split_comma_single|].
  change (p ++ "," ++ String.concat "," (p' :: l'))%string
    with (p ++ String ","%char (String.concat "," (p' :: l')))%string.
  now rewrite (split_comma_app _ _ Hp), IH.
Qed.

(** X10. Splitting undoes joining: for pieces without a comma, the list of
    companies read from the pieces joined by commas is the pieces stripped,
    in order, without those that strip to the empty string. *)
Theorem parse_companies_join (pieces : list string) :
  Forall (fun p => PyStr.all_chars not_comma p = true) pieces ->
  parse_companies (join_comma pieces)
  = filter (fun c => negb (PyStr.is_empty c)) (map PyStr.strip pieces).
Proof.
  intros H. unfold parse_companies. rewrite (split_comma_join pieces H).
  assert (E : forall l,
             map PyStr.strip
                 (filter (fun c => negb (PyStr.is_empty (PyStr.strip c))) l)
             = filter (fun c => negb (PyStr.is_empty c)) (map PyStr.strip l)).
  { induction l as [|x l IHl]; [reflexivity|]. cbn.
    destruct (PyStr.is_empty (PyStr.strip x)); cbn; now rewrite IHl. }
  destruct pieces; [reflexivity|apply E].
Qed.

(** ** Runs of [main] *)

Lemma lex_compare_refl (a : list Z) : lex_compare a a = Eq.
Proof.
  induction a as [|x a IH]; cbn; [reflexivity|]. now rewrite Z.compare_refl.
Qed.

Lemma date_gt_irrefl (d : date) : Date.gt d d = false.
Proof. unfold Date.gt, Date.lt. now rewrite lex_compare_refl. Qed.

Lemma writes_app (a b : list event) : writes (a ++ b) = writes a ++ writes b.
Proof.
  induction a as [|e a IH]; [reflexivity|]. destruct e; cbn; now rewrite ?IH.
Qed.

Lemma written_files_writes (tr : list event) :
  written_files tr = map fst (writes tr).
Proof.
  induction tr as [|e tr IH]; [reflexivity|]. destruct e; cbn; now rewrite ?IH.
Qed.

Section Runs.

Context {P : Platform}.

Lemma fetch_writes_nothing company auth_token offset batch_size (st : state) :
  let o := fetch_g2_reviews company auth_token offset batch_size st in
  writes (trace o) = [] /\ stdin (final o) = stdin st.
Proof.
  cbn zeta.
  destruct (http_get (world st) (mkRequest api_url company auth_token offset))
    as [w [resp|]] eqn:E.
  - rewrite (fetch_g2_reviews_eq _ _ _ _ _ _ _ E).
    now destruct (status_code resp =? 200).
  - now rewrite (fetch_g2_reviews_no_response _ _ _ _ _ _ E).
Qed.

Lemma while_true_writes_nothing (fuel : nat) company auth_token
      start_date end_date (acc : list review) (offset : Z) (st : state) :
  let o := while_true fuel company auth_token start_date end_date
                      acc offset st in
  writes (trace o) = [] /\ stdin (final o) = stdin st.
Proof.
  cbn zeta. revert acc offset st.
  induction fuel as [|fuel IH]; intros acc offset st; [now split|].
  rewrite while_true_turn. unfold turn.
  destruct (fetch_writes_nothing company auth_token offset
                                 default_batch_size st) as [Hw Hin].
  set (o := fetch_g2_reviews company auth_token offset default_batch_size st)
    in *.
  destruct (res o) as [reviews| |]; cbn [trace final]; auto.
  destruct (falsy reviews); cbn [trace final]; auto.
  destruct (for_reviews company start_date end_date (items reviews) acc);
    cbn [trace final]; auto.
  destruct (IH all_reviews (offset + len reviews) (final o)) as [Hw' Hin'].
  rewrite writes_app, Hw, Hw', Hin', Hin. now split.
Qed.

(** What a call of the collector leaves behind. *)
Lemma collector_outcome (fuel : nat)
      (company auth_token start_str end_str : string) (st : state) :
  let o := fetch_reviews_in_date_range fuel company auth_token
                                       start_str end_str st in
  writes (trace o) = []
  /\ stdin (final o) = stdin st
  /\ forall out, res o = Val out ->
                 Forall (fun rv => r_source rv = "g2" /\ r_company rv = company)
                        out.
Proof.
  cbn zeta.
  unfold fetch_reviews_in_date_range, bind, datetime_fromisoformat.
  destruct (fromisoformat start_str) as [start_date|]; cbn;
    [|repeat split; discriminate].
  destruct (fromisoformat end_str) as [end_date|]; cbn;
    [|repeat split; discriminate].
  destruct (while_true_writes_nothing fuel company auth_token start_date
                                      end_date [] 0 st) as [Hw Hin].
  pose proof (while_true_added company auth_token start_date end_date
                               fuel [] 0 st) as Hadd.
  cbn zeta in Hadd.
  destruct (res (while_true fuel company auth_token start_date end_date
                            [] 0 st)) as [out| |]; cbn;
    rewrite ?app_nil_r; repeat split; auto; try discriminate.
  intros out' [= <-]. destruct (Hadd out eq_refl) as (added & -> & _ & H & _).
  exact H.
Qed.

Lemma opened_app (a b : list event) : opened (a ++ b) = opened a ++ opened b.
Proof.
  induction a as [|e a IH]; [reflexivity|]. destruct e; cbn; now rewrite ?IH.
Qed.

Lemma fetch_opens_nothing company auth_token offset batch_size (st : state) :
  opened (trace (fetch_g2_reviews company auth_token offset batch_size st))
  = [].
Proof.
  destruct (http_get (world st) (mkRequest api_url company auth_token offset))
    as [w [resp|]] eqn:E.
  - rewrite (fetch_g2_reviews_eq _ _ _ _ _ _ _ E).
    now destruct (status_code resp =? 200).
  - now rewrite (fetch_g2_reviews_no_response _ _ _ _ _ _ E).
Qed.

Lemma while_true_opens_nothing (fuel : nat) company auth_token
      start_date end_date (acc : list review) (offset : Z) (st : state) :
  opened (trace (while_true fuel company auth_token start_date end_date
                            acc offset st)) = [].
Proof.
  revert acc offset st.
  induction fuel as [|fuel IH]; intros acc offset st; [reflexivity|].
  rewrite while_true_turn. unfold turn.
  pose proof (fetch_opens_nothing company auth_token offset
                                  default_batch_size st) as Ho.
  set (o := fetch_g2_reviews company auth_token offset default_batch_size st)
    in *.
  destruct (res o) as [reviews| |]; cbn [trace]; auto.
  destruct (falsy reviews); cbn [trace]; auto.
  destruct (for_reviews company start_date end_date (items reviews) acc);
    cbn [trace]; auto.
  now rewrite opened_app, Ho, IH.
Qed.

Lemma collector_opens_nothing (fuel : nat)
      (company auth_token start_str end_str : string) (st : state) :
  opened (trace (fetch_reviews_in_date_range fuel company auth_token
                                             start_str end_str st)) = [].
Proof.
  unfold fetch_reviews_in_date_range, bind, datetime_fromisoformat.
  destruct (fromisoformat start_str) as [start_date|]; cbn; [|reflexivity].
  destruct (fromisoformat end_str) as [end_date|]; cbn; [|reflexivity].
  pose proof (while_true_opens_nothing fuel company auth_token start_date
                                       end_date [] 0 st) as H.
  destruct (res (while_true fuel company auth_token start_date end_date
                            [] 0 st)); cbn; now rewrite ?app_nil_r.
Qed.

(** What saving leaves in the trace, whether or not the file system lets
    it through. *)
Lemma save_reviews_trace (company : string) (reviews : list review)
      (st : state) :
  let o := save_reviews company reviews st in
  Forall (fun pc => pc = (output_file company, reviews)) (writes (trace o))
  /\ Forall (fun path => path = output_file company) (opened (trace o))
  /\ requests (trace o) = [].
Proof.
  cbn zeta. unfold save_reviews, bind, os_makedirs, open_w, json_dump, print.
  generalize (output_file company). intros path.
  destruct (makedirs (world st) "output") as [w1 []];
    cbn [trace final res world stdin app writes opened requests];
    [|repeat split; constructor].
  destruct (open_write w1 path) as [w2 []];
    cbn [trace final res world stdin app writes opened requests];
    [|repeat split; constructor].
  destruct (dump w2 path reviews) as [w3 []];
    cbn [trace final res world stdin app writes opened requests];
    repeat split; repeat constructor.
Qed.

(** A property of the writes, of the files opened or of the requests of a
    computation, from the same property of its two parts. *)
Lemma bind_events {A B X : Type} (proj : list event -> list X)
      (Q : X -> Prop) (m : M A) (f : A -> M B) (st : state) :
  (forall a b, proj (a ++ b) = proj a ++ proj b) ->
  Forall Q (proj (trace (m st))) ->
  (forall a, res (m st) = Val a -> Forall Q (proj (trace (f a (final (m st)))))) ->
  Forall Q (proj (trace (bind m f st))).
Proof.
  intros Happ Hm Hf. unfold bind.
  destruct (res (m st)) as [a| |]; cbn [trace]; auto.
  rewrite Happ. apply Forall_app. split; [exact Hm|now apply Hf].
Qed.

(** What the loop over the companies writes and opens. *)
Lemma for_companies_writes (fuel : nat) (auth_token start_str end_str : string)
      (companies : list string) (st : state) :
  let o := for_companies fuel auth_token start_str end_str companies st in
  Forall (fun pc =>
            snd pc <> []
            /\ exists company,
                In company companies
                /\ fst pc = output_file company
                /\ Forall (fun rv => r_source rv = "g2"
                                     /\ r_company rv = company) (snd pc))
         (writes (trace o))
  /\ Forall (fun path => exists company,
                 In company companies /\ path = output_file company)
            (opened (trace o)).
Proof.
  cbn zeta. revert st.
  induction companies as [|company rest IH]; intros st;
    [split; constructor|].
  cbn [for_companies].
  destruct (collector_outcome fuel company auth_token start_str end_str st)
    as (Hw & _ & Hout).
  pose proof (collector_opens_nothing fuel company auth_token start_str
                                      end_str st) as Ho.
  split.
  - apply (bind_events writes); [exact writes_app|rewrite Hw; constructor|].
    intros reviews Hres. specialize (Hout reviews Hres).
    apply (bind_events writes); [exact writes_app| |].
    + destruct reviews as [|rv reviews]; cbn [is_nil]; [constructor|].
      destruct (save_reviews_trace company (rv :: reviews)
                  (final (fetch_reviews_in_date_range
                            fuel company auth_token start_str end_str st)))
        as (H & _ & _).
      eapply Forall_impl; [|exact H]. intros pc ->. cbn [fst snd].
      split; [discriminate|]. exists company. repeat split; auto. now left.
    + intros _ _. destruct (IH (final
        ((if is_nil reviews then print (no_reviews_message company)
          else save_reviews company reviews)
           (final (fetch_reviews_in_date_range
                     fuel company auth_token start_str end_str st)))))
        as [H _].
      eapply Forall_impl; [|exact H].
      intros pc (Hne & c & Hc & Hp & Hall). split; [exact Hne|].
      exists c. repeat split; auto. now right.
  - apply (bind_events opened); [exact opened_app|rewrite Ho; constructor|].
    intros reviews Hres.
    apply (bind_events opened); [exact opened_app| |].
    + destruct reviews as [|rv reviews]; cbn [is_nil]; [constructor|].
      destruct (save_reviews_trace company (rv :: reviews)
                  (final (fetch_reviews_in_date_range
                            fuel company auth_token start_str end_str st)))
        as (_ & H & _).
      eapply Forall_impl; [|exact H]. intros path ->.
      exists company. split; [now left|reflexivity].
    + intros _ _. destruct (IH (final
        ((if is_nil reviews then print (no_reviews_message company)
          else save_reviews company reviews)
           (final (fetch_reviews_in_date_range
                     fuel company auth_token start_str end_str st)))))
        as [_ H].
      eapply Forall_impl; [|exact H].
      intros path (c & Hc & Hp). exists c. split; [now right|exact Hp].
Qed.

End Runs.

Section MainRuns.

Context {P : Platform}.

Lemma validated_prints (today start_date end_date : date) :
  writes (fst (validated today start_date end_date)) = []
  /\ requested_offsets (fst (validated today start_date end_date)) = [].
Proof.
  unfold validated.
  destruct (Date.gt start_date today); [now split|].
  destruct (Date.gt end_date today);
    now destruct (Date.gt start_date _).
Qed.

(** X11. When the start date typed in is after today, whatever the end
    date, [main] prints that the start date cannot be in the future and
    returns: no warning about the end date, no request, no file. *)
Theorem future_start_aborts (today : date) (fuel : nat) (st : state)
        (l1 l2 l3 l4 : string) (rest : list string) (sdt edt : datetime) :
  stdin st = l1 :: l2 :: l3 :: l4 :: rest ->
  fromisoformat (PyStr.strip l3) = Some sdt ->
  fromisoformat (PyStr.strip l4) = Some edt ->
  Date.gt (Datetime.date_of sdt) today = true ->
  let run := main today fuel st in
  run = mkOutcome (prompts ++ [EvPrint msg_future_start])
                  (mkState (world st) rest) (Val tt)
  /\ printed (trace run) = [msg_future_start]
  /\ requested_offsets (trace run) = []
  /\ written_files (trace run) = [].
Proof.
  intros Hin Hs He Hfut run.
  assert (E : run = mkOutcome (prompts ++ [EvPrint msg_future_start])
                              (mkState (world st) rest) (Val tt)).
  { subst run. rewrite (main_eq today fuel st l1 l2 l3 l4 rest Hin), Hs, He.
    unfold validated. now rewrite Hfut. }
  rewrite E. repeat split.
Qed.

(** X12. The window [main] hands to the collector is always a valid one.
    With both dates parsed, either [main] returns after one of its two
    refusals without sending a request, or it runs the loop over the
    companies with a start date [s] and an end date [e] such that
    [s <= e <= today]; [s] is the start date typed in and [e] the end date
    typed in or today. *)
Theorem main_window_is_valid (today : date) (fuel : nat) (st : state)
        (l1 l2 l3 l4 : string) (rest : list string) (sdt edt : datetime) :
  stdin st = l1 :: l2 :: l3 :: l4 :: rest ->
  fromisoformat (PyStr.strip l3) = Some sdt ->
  fromisoformat (PyStr.strip l4) = Some edt ->
  let run := main today fuel st in
  (res run = Val tt
   /\ requested_offsets (trace run) = []
   /\ (In msg_future_start (printed (trace run))
       \/ In msg_inverted (printed (trace run))))
  \/ exists s e msgs,
      s = Datetime.date_of sdt
      /\ (e = Datetime.date_of edt \/ e = today)
      /\ Date.gt s e = false
      /\ Date.gt e today = false
      /\ Date.gt s today = false
      /\ let o := bind (for_companies fuel (PyStr.strip l2)
                                      (Date.isoformat s) (Date.isoformat e)
                                      (parse_companies l1))
                       (fun _ => print msg_done) (mkState (world st) rest) in
         run = mkOutcome (prompts ++ msgs ++ trace o) (final o) (res o).
Proof.
  intros Hin Hs He run. subst run.
  rewrite (main_eq today fuel st l1 l2 l3 l4 rest Hin), Hs, He.
  unfold validated.
  destruct (Date.gt (Datetime.date_of sdt) today) eqn:H1.
  { left. cbn. repeat split. left. now left. }
  destruct (Date.gt (Datetime.date_of edt) today) eqn:H2.
  - rewrite H1. right.
    exists (Datetime.date_of sdt), today, [EvPrint msg_future_end].
    repeat split; auto. apply date_gt_irrefl.
  - destruct (Date.gt (Datetime.date_of sdt) (Datetime.date_of edt)) eqn:H3.
    + left. cbn. repeat split. right. now left.
    + right. exists (Datetime.date_of sdt), (Datetime.date_of edt), [].
      repeat split; auto.
Qed.

Lemma end_of_input_lemma (today : date) (fuel : nat) (st : state) :
  (List.length (stdin st) < 4)%nat ->
  main today fuel st
  = mkOutcome (firstn (S (List.length (stdin st))) prompts)
              (mkState (world st) []) (Raised EOFError).
Proof.
  destruct st as [w lines]. cbn [stdin world]. intros H.
  destruct lines as [|l1 [|l2 [|l3 [|l4 rest]]]]; cbn in H; try lia;
    reflexivity.
Qed.

(** X13. When the input ends before the fourth line, [main] ends in
    [EOFError] at the prompt it could not read an answer to: the prompts up
    to that one are the only events, and no date is parsed, no request sent
    and no file written. *)
Theorem end_of_input_is_fatal (today : date) (fuel : nat) (st : state) :
  (List.length (stdin st) < 4)%nat ->
  main today fuel st
  = mkOutcome (firstn (S (List.length (stdin st))) prompts)
              (mkState (world st) []) (Raised EOFError).
Proof.
  destruct st as [w lines]. cbn [stdin world]. intros H.
  destruct lines as [|l1 [|l2 [|l3 [|l4 rest]]]]; cbn in H; try lia;
    reflexivity.
Qed.

Lemma main_writes (today : date) (fuel : nat) (st : state) :
  Forall (fun pc =>
            snd pc <> []
            /\ exists company,
                In company (parse_companies (hd EmptyString (stdin st)))
                /\ fst pc = output_file company
                /\ Forall (fun rv => r_source rv = "g2"
                                     /\ r_company rv = company) (snd pc))
         (writes (trace (main today fuel st))).
Proof.
  destruct (Nat.lt_ge_cases (List.length (stdin st)) 4) as [Hlt|Hge].
  { rewrite (end_of_input_lemma today fuel st Hlt).
    destruct (stdin st) as [|l1 [|l2 [|l3 [|l4 rest]]]]; cbn; constructor. }
  destruct (stdin st) as [|l1 [|l2 [|l3 [|l4 rest]]]] eqn:Hin;
    cbn in Hge; try lia.
  rewrite (main_eq today fuel st l1 l2 l3 l4 rest Hin). cbn [hd].
  destruct (fromisoformat (PyStr.strip l3)) as [sdt|]; [|constructor].
  destruct (fromisoformat (PyStr.strip l4)) as [edt|]; [|constructor].
  destruct (validated_prints today (Datetime.date_of sdt)
                             (Datetime.date_of edt)) as [Hmsgs _].
  destruct (validated today (Datetime.date_of sdt) (Datetime.date_of edt))
    as [msgs [[s e]|]]; cbn [fst] in Hmsgs; cbn [trace].
  - rewrite !writes_app, Hmsgs. cbn [app writes prompts].
    unfold bind.
    destruct (for_companies_writes fuel (PyStr.strip l2) (Date.isoformat s)
                (Date.isoformat e) (parse_companies l1)
                (mkState (world st) rest)) as [H _].
    cbn zeta in H.
    destruct (res (for_companies fuel (PyStr.strip l2) (Date.isoformat s)
                     (Date.isoformat e) (parse_companies l1)
                     (mkState (world st) rest))); cbn [trace]; auto.
    unfold print. cbn [trace]. now rewrite writes_app, app_nil_r.
  - rewrite writes_app, Hmsgs. constructor.
Qed.


Lemma main_opened (today : date) (fuel : nat) (st : state) :
  Forall (fun path => exists company,
              In company (parse_companies (hd EmptyString (stdin st)))
              /\ path = output_file company)
         (opened (trace (main today fuel st))).
Proof.
  destruct (Nat.lt_ge_cases (List.length (stdin st)) 4) as [Hlt|Hge].
  { rewrite (end_of_input_lemma today fuel st Hlt).
    destruct (stdin st) as [|l1 [|l2 [|l3 [|l4 rest]]]]; cbn; constructor. }
  destruct (stdin st) as [|l1 [|l2 [|l3 [|l4 rest]]]] eqn:Hin;
    cbn in Hge; try lia.
  rewrite (main_eq today fuel st l1 l2 l3 l4 rest Hin). cbn [hd].
  destruct (fromisoformat (PyStr.strip l3)) as [sdt|]; [|constructor].
  destruct (fromisoformat (PyStr.strip l4)) as [edt|]; [|constructor].
  assert (Hmsgs : opened (fst (validated today (Datetime.date_of sdt)
                                         (Datetime.date_of edt))) = []).
  { unfold validated.
    destruct (Date.gt (Datetime.date_of sdt) today); [reflexivity|].
    destruct (Date.gt (Datetime.date_of edt) today);
      now destruct (Date.gt (Datetime.date_of sdt) _). }
  destruct (validated today (Datetime.date_of sdt) (Datetime.date_of edt))
    as [msgs [[s e]|]]; cbn [fst] in Hmsgs; cbn [trace].
  - rewrite !opened_app, Hmsgs. cbn [app opened prompts].
    apply (bind_events opened); [exact opened_app| |].
    + apply (for_companies_writes fuel (PyStr.strip l2) (Date.isoformat s)
               (Date.isoformat e) (parse_companies l1)
               (mkState (world st) rest)).
    + intros _ _. constructor.
  - rewrite opened_app, Hmsgs. constructor.
Qed.

(** X14. [main] touches no file but those of the companies typed in, and
    never writes an empty list.  Every file it opens for writing is
    [output/<company>_g2_reviews.json] for a company of the list; every
    list it writes goes to such a file, is not empty, and every record in
    it carries that company and the source [g2]. *)
Theorem main_writes_only_company_files (today : date) (fuel : nat)
        (st : state) :
  Forall (fun pc =>
            snd pc <> []
            /\ exists company,
                In company (parse_companies (hd EmptyString (stdin st)))
                /\ fst pc = output_file company
                /\ Forall (fun rv => r_source rv = "g2"
                                     /\ r_company rv = company) (snd pc))
         (writes (trace (main today fuel st)))
  /\ Forall (fun path => exists company,
                 In company (parse_companies (hd EmptyString (stdin st)))
                 /\ path = output_file company)
            (opened (trace (main today fuel st))).
Proof.
  split; [apply main_writes|apply main_opened].
Qed.

End MainRuns.

Section Aborts.

Context {P : Platform}.

(** X15. No exception of the collector is caught.  When the collector
    ends in an exception for one company, after the companies before it
    were processed, [main] ends in that exception at that point: the events
    of the run are those up to it, nothing is saved for that company, the
    companies after it are not processed and the completion message is not
    printed. *)
Theorem exception_ends_run (today : date) (fuel : nat) (st : state)
        (l1 l2 l3 l4 : string) (rest : list string) (sdt edt : datetime)
        (before : list string) (company : string) (others : list string)
        (e : exn) :
  stdin st = l1 :: l2 :: l3 :: l4 :: rest ->
  fromisoformat (PyStr.strip l3) = Some sdt ->
  fromisoformat (PyStr.strip l4) = Some edt ->
  let start_day := Datetime.date_of sdt in
  let end_day := if Date.gt (Datetime.date_of edt) today then today
                 else Datetime.date_of edt in
  let warn := if Date.gt (Datetime.date_of edt) today
              then [msg_future_end] else [] in
  Date.gt start_day today = false ->
  Date.gt start_day end_day = false ->
  parse_companies l1 = before ++ company :: others ->
  let o1 := for_companies fuel (PyStr.strip l2) (Date.isoformat start_day)
                          (Date.isoformat end_day) before
                          (mkState (world st) rest) in
  res o1 = Val tt ->
  let oc := fetch_reviews_in_date_range fuel company (PyStr.strip l2)
                                        (Date.isoformat start_day)
                                        (Date.isoformat end_day) (final o1) in
  res oc = Raised e ->
  main today fuel st
  = mkOutcome (prompts ++ map EvPrint warn ++ trace o1 ++ trace oc)
              (final oc) (Raised e).
Proof.
  intros Hin Hs He start_day end_day warn Htoday Hwin Hcs o1 H1 oc Hc.
  subst start_day end_day warn.
  rewrite (main_eq today fuel st l1 l2 l3 l4 rest Hin), Hs, He.
  rewrite (validated_window _ _ _ Htoday Hwin), Hcs. cbn zeta.
  unfold bind. rewrite for_companies_app.
  pose proof (for_companies_raised fuel (PyStr.strip l2)
                (Date.isoformat (Datetime.date_of sdt))
                (Date.isoformat
                   (if Date.gt (Datetime.date_of edt) today then today
                    else Datetime.date_of edt))
                company others (final o1) e Hc) as Hfor.
  fold oc in Hfor. unfold bind. fold o1. rewrite H1, Hfor.
  reflexivity.
Qed.

End Aborts.

(** ** Instances *)

Lemma paged_serves (iso fromiso : string -> option datetime)
      (all : list json) (page_size : nat) (company auth_token : string) :
  (1 <= page_size)%nat ->
  @serves (served iso fromiso (Reference.paged all page_size))
          company auth_token all.
Proof.
  intros Hk w o.
  exists tt,
    (Reference.paged all page_size
                     (mkRequest api_url company auth_token (Z.of_nat o))),
    [("reviews", JList (firstn page_size (skipn o all)))],
    (firstn page_size (skipn o all)), (skipn page_size (skipn o all)).
  unfold Reference.paged, Reference.ok. cbn. rewrite Nat2Z.id.
  repeat split.
  - now destruct w.
  - now rewrite firstn_skipn.
  - destruct (skipn o all); [now rewrite skipn_nil|].
    destruct page_size; [lia|discriminate].
Qed.

Lemma while_true_extends_witness :
  exists added,
    [Scenario.kept_inside] = [] ++ added
    /\ Forall (@from_fetched (Reference.platform Scenario.descending)
                             "notion" "tok"
                             Scenario.window_start Scenario.window_end
                             1 [] 0 (Reference.start Scenario.descending []))
              added
    /\ Forall (@admissible (Reference.platform Scenario.descending) "notion"
                           Scenario.window_start Scenario.window_end) added
    /\ Forall (fun rv => r_source rv = "g2" /\ r_company rv = "notion") added
    /\ Z.of_nat (List.length added) <= 50 * 1.
Proof.
  exact (@while_true_extends
           (Reference.platform Scenario.descending) "notion" "tok"
           Scenario.window_start Scenario.window_end 1 [] 0
           (Reference.start Scenario.descending [])
           [Scenario.kept_inside] eq_refl).
Defined.

Lemma unparseable_page_is_skipped_witness :
  @while_true (Reference.platform MoreScenarios.garbled_server) 2
              "notion" "tok" Scenario.window_start Scenario.window_end [] 0
              (Reference.start MoreScenarios.garbled_server [])
  = mkOutcome [EvRequest (mkRequest api_url "notion" "tok" 0);
               EvRequest (mkRequest api_url "notion" "tok" 2)]
              (Reference.start MoreScenarios.garbled_server []) (Val []).
Proof.
  rewrite (@unparseable_page_is_skipped
             (Reference.platform MoreScenarios.garbled_server) "notion" "tok"
             Scenario.window_start Scenario.window_end 1 [] 0
             (Reference.start MoreScenarios.garbled_server [])
             (JList MoreScenarios.garbled) eq_refl eq_refl).
  - reflexivity.
  - left. repeat constructor.
Defined.

Lemma error_page_ends_collection_witness :
  @while_true (Reference.platform Scenario.failing_server) 1
              "notion" "tok" Scenario.window_start Scenario.window_end
              [Scenario.kept_inside] 50
              (Reference.start Scenario.failing_server [])
  = mkOutcome [EvRequest (mkRequest api_url "notion" "tok" 50);
               EvPrint "API Error for notion: 500 Internal Server Error"]
              (Reference.start Scenario.failing_server [])
              (Val [Scenario.kept_inside]).
Proof.
  apply (@error_page_ends_collection
           (Reference.platform Scenario.failing_server) "notion" "tok"
           Scenario.window_start Scenario.window_end 0
           [Scenario.kept_inside] 50
           (Reference.start Scenario.failing_server []) tt
           (mkResponse 500 "Internal Server Error" None)).
  - reflexivity.
  - cbn. discriminate.
Defined.

Lemma missing_reviews_ends_collection_witness :
  @while_true (Reference.platform MoreScenarios.bare_server) 1
              "notion" "tok" Scenario.window_start Scenario.window_end [] 0
              (Reference.start MoreScenarios.bare_server [])
  = mkOutcome [EvRequest (mkRequest api_url "notion" "tok" 0)]
              (Reference.start MoreScenarios.bare_server []) (Val []).
Proof.
  apply (@missing_reviews_ends_collection
           (Reference.platform MoreScenarios.bare_server) "notion" "tok"
           Scenario.window_start Scenario.window_end 0 [] 0
           (Reference.start MoreScenarios.bare_server []) tt
           (MoreScenarios.bare_server (mkRequest api_url "notion" "tok" 0))
           [("status", JStr "ok")]).
  - reflexivity.
  - reflexivity.
  - reflexivity.
  - left. reflexivity.
Defined.

Lemma hard_failure_propagates_witness :
  @while_true (Reference.platform MoreScenarios.html_server) 1
              "notion" "tok" Scenario.window_start Scenario.window_end
              [Scenario.kept_inside] 50
              (Reference.start MoreScenarios.html_server [])
  = mkOutcome [EvRequest (mkRequest api_url "notion" "tok" 50)]
              (Reference.start MoreScenarios.html_server [])
              (Raised JSONDecodeError).
Proof.
  apply (proj2 (@hard_failure_propagates
                  (Reference.platform MoreScenarios.html_server) "notion" "tok"
                  Scenario.window_start Scenario.window_end 0
                  [Scenario.kept_inside] 50
                  (Reference.start MoreScenarios.html_server []) tt)
               (MoreScenarios.html_server (mkRequest api_url "notion" "tok" 50))
               eq_refl eq_refl).
  reflexivity.
Defined.

Lemma paging_is_transparent_witness :
  res (@while_true (Reference.platform Scenario.two_a_page) 4
                   "notion" "tok" Scenario.window_start Scenario.window_end
                   [] 0 (Reference.start Scenario.two_a_page []))
  = Val [Scenario.kept_inside].
Proof.
  rewrite (@paging_is_transparent
             (Reference.platform Scenario.two_a_page) "notion" "tok"
             Scenario.window_start Scenario.window_end
             MoreScenarios.all_reviews 4
             (Reference.start Scenario.two_a_page [])).
  - reflexivity.
  - apply (paged_serves Reference.parse_iso Reference.parse_iso
                        MoreScenarios.all_reviews 2 "notion" "tok"). lia.
  - cbn. lia.
Defined.

Lemma descending_reviews_complete_witness :
  @flow_result (@for_reviews (Reference.platform Scenario.two_a_page)
                             "notion" Scenario.window_start Scenario.window_end
                             MoreScenarios.all_reviews [])
  = Val [Scenario.kept_inside].
Proof.
  rewrite (@descending_reviews_complete
             (Reference.platform Scenario.two_a_page) "notion"
             Scenario.window_start Scenario.window_end
             MoreScenarios.all_reviews []).
  - reflexivity.
  - reflexivity.
  - reflexivity.
  - split; repeat constructor.
Defined.

Lemma collector_complete_witness :
  res (@while_true (Reference.platform Scenario.two_a_page) 4
                   "notion" "tok" Scenario.window_start Scenario.window_end
                   [] 0 (Reference.start Scenario.two_a_page []))
  = Val [Scenario.kept_inside].
Proof.
  rewrite (@collector_complete
             (Reference.platform Scenario.two_a_page) "notion" "tok"
             Scenario.window_start Scenario.window_end
             MoreScenarios.all_reviews 4
             (Reference.start Scenario.two_a_page [])).
  - reflexivity.
  - apply (paged_serves Reference.parse_iso Reference.parse_iso
                        MoreScenarios.all_reviews 2 "notion" "tok"). lia.
  - reflexivity.
  - reflexivity.
  - split; repeat constructor.
  - cbn. lia.
Defined.

Lemma parse_companies_join_witness :
  parse_companies
    (join_comma ["jira"; " notion "; MoreScenarios.padded_company;
                 MoreScenarios.nel; "  "])
  = ["jira"; "notion"; "jira"].
Proof.
  apply (parse_companies_join
           ["jira"; " notion "; MoreScenarios.padded_company;
            MoreScenarios.nel; "  "]).
  repeat constructor.
Defined.

Lemma future_start_aborts_witness :
  @main (Reference.platform Scenario.descending) Scenario.today 3
        (Reference.start Scenario.descending
           (Scenario.typed "notion" "2024-07-10" "2024-07-20"))
  = mkOutcome (prompts ++ [EvPrint msg_future_start])
              (Reference.start Scenario.descending []) (Val tt).
Proof.
  apply (@future_start_aborts
           (Reference.platform Scenario.descending) Scenario.today 3
           (Reference.start Scenario.descending
              (Scenario.typed "notion" "2024-07-10" "2024-07-20"))
           "notion" "tok" "2024-07-10" "2024-07-20" []
           (Datetime.midnight (mkDate 2024 7 10))
           (Datetime.midnight (mkDate 2024 7 20)));
    reflexivity.
Defined.

Lemma main_window_is_valid_witness :
  let run := @main (Reference.platform Scenario.descending) Scenario.today 3
                   (Reference.start Scenario.descending
                      (Scenario.typed "notion" "2024-06-01" "2024-07-01")) in
  (res run = Val tt
   /\ requested_offsets (trace run) = []
   /\ (In msg_future_start (printed (trace run))
       \/ In msg_inverted (printed (trace run))))
  \/ exists s e msgs,
      s = mkDate 2024 6 1
      /\ (e = mkDate 2024 7 1 \/ e = Scenario.today)
      /\ Date.gt s e = false
      /\ Date.gt e Scenario.today = false
      /\ Date.gt s Scenario.today = false
      /\ let o := bind (@for_companies (Reference.platform Scenario.descending)
                                       3 "tok"
                                       (Date.isoformat s) (Date.isoformat e)
                                       ["notion"])
                       (fun _ => print msg_done)
                       (Reference.start Scenario.descending []) in
         run = mkOutcome (prompts ++ msgs ++ trace o) (final o) (res o).
Proof.
  exact (@main_window_is_valid
           (Reference.platform Scenario.descending) Scenario.today 3
           (Reference.start Scenario.descending
              (Scenario.typed "notion" "2024-06-01" "2024-07-01"))
           "notion" "tok" "2024-06-01" "2024-07-01" []
           (Datetime.midnight (mkDate 2024 6 1))
           (Datetime.midnight (mkDate 2024 7 1))
           eq_refl eq_refl eq_refl).
Defined.

Lemma end_of_input_is_fatal_witness :
  @main (Reference.platform Scenario.descending) Scenario.today 3
        (Reference.start Scenario.descending ["notion"; "tok"])
  = mkOutcome [EvPrompt prompt_companies; EvPrompt prompt_token;
               EvPrompt prompt_start]
              (Reference.start Scenario.descending []) (Raised EOFError).
Proof.
  apply (@end_of_input_is_fatal
           (Reference.platform Scenario.descending) Scenario.today 3
           (Reference.start Scenario.descending ["notion"; "tok"])).
  cbn. lia.
Defined.

Lemma exception_ends_run_witness :
  let run := @main (Reference.platform MoreScenarios.mixed_server)
                   Scenario.today 3
                   (Reference.start MoreScenarios.mixed_server
                      (Scenario.typed "notion, jira, asana"
                                      "2024-06-01" "2024-06-08")) in
  res run = Raised TypeError
  /\ written_files (trace run) = ["output/notion_g2_reviews.json"]
  /\ requested_offsets (trace run) = [0; 0].
Proof.
  cbn zeta.
  rewrite (@exception_ends_run
             (Reference.platform MoreScenarios.mixed_server) Scenario.today 3
             (Reference.start MoreScenarios.mixed_server
                (Scenario.typed "notion, jira, asana"
                                "2024-06-01" "2024-06-08"))
             "notion, jira, asana" "tok" "2024-06-01" "2024-06-08" []
             (Datetime.midnight (mkDate 2024 6 1))
             (Datetime.midnight (mkDate 2024 6 8))
             ["notion"] "jira" ["asana"] TypeError
             eq_refl eq_refl eq_refl eq_refl eq_refl eq_refl eq_refl eq_refl).
  repeat split.
Defined.

(** ** Where the requests go *)

Lemma requests_app (a b : list event) :
  requests (a ++ b) = requests a ++ requests b.
Proof.
  induction a as [|e a IH]; [reflexivity|]. destruct e; cbn; now rewrite ?IH.
Qed.

Section Requests.

Context {P : Platform}.

Lemma fetch_requests company auth_token offset batch_size (st : state) :
  requests (trace (fetch_g2_reviews company auth_token offset batch_size st))
  = [mkRequest api_url company auth_token offset].
Proof.
  destruct (http_get (world st) (mkRequest api_url company auth_token offset))
    as [w [resp|]] eqn:E.
  - rewrite (fetch_g2_reviews_eq _ _ _ _ _ _ _ E).
    now destruct (status_code resp =? 200).
  - now rewrite (fetch_g2_reviews_no_response _ _ _ _ _ _ E).
Qed.

Lemma while_true_requests (fuel : nat) company auth_token start_date end_date
      (acc : list review) (offset : Z) (st : state) :
  Forall (request_for company auth_token)
         (requests (trace (while_true fuel company auth_token start_date
                                      end_date acc offset st))).
Proof.
  revert acc offset st.
  induction fuel as [|fuel IH]; intros acc offset st; [constructor|].
  rewrite while_true_turn. unfold turn.
  pose proof (fetch_requests company auth_token offset default_batch_size st)
    as Hq.
  assert (H1 : Forall (request_for company auth_token)
                      [mkRequest api_url company auth_token offset])
    by (repeat constructor).
  set (o := fetch_g2_reviews company auth_token offset default_batch_size st)
    in *.
  destruct (res o) as [reviews| |]; cbn [trace]; rewrite ?Hq; auto.
  destruct (falsy reviews); cbn [trace]; rewrite ?Hq; auto.
  destruct (for_reviews company start_date end_date (items reviews) acc);
    cbn [trace]; rewrite ?Hq; auto.
  rewrite requests_app, Hq. apply Forall_app. split; [exact H1|apply IH].
Qed.

Lemma collector_requests (fuel : nat)
      (company auth_token start_str end_str : string) (st : state) :
  Forall (request_for company auth_token)
         (requests (trace (fetch_reviews_in_date_range
                             fuel company auth_token start_str end_str st))).
Proof.
  unfold fetch_reviews_in_date_range, bind, datetime_fromisoformat.
  destruct (fromisoformat start_str) as [start_date|]; cbn; [|constructor].
  destruct (fromisoformat end_str) as [end_date|]; cbn; [|constructor].
  pose proof (while_true_requests fuel company auth_token start_date end_date
                                  [] 0 st) as H.
  destruct (res (while_true fuel company auth_token start_date end_date
                            [] 0 st)); cbn; now rewrite ?app_nil_r.
Qed.

Lemma for_companies_requests (fuel : nat)
      (auth_token start_str end_str : string) (companies : list string)
      (st : state) :
  Forall (fun q => exists company,
              In company companies /\ request_for company auth_token q)
         (requests (trace (for_companies fuel auth_token start_str end_str
                                         companies st))).
Proof.
  revert st. induction companies as [|company rest IH]; intros st;
    [constructor|].
  cbn [for_companies].
  apply (bind_events requests); [exact requests_app| |].
  - eapply Forall_impl;
      [|apply (collector_requests fuel company auth_token start_str end_str st)].
    intros q Hq. exists company. split; [now left|exact Hq].
  - intros reviews _.
    apply (bind_events requests); [exact requests_app| |].
    + destruct reviews as [|rv reviews]; cbn [is_nil]; [constructor|].
      destruct (save_reviews_trace company (rv :: reviews)
                  (final (fetch_reviews_in_date_range
                            fuel company auth_token start_str end_str st)))
        as (_ & _ & H).
      cbn zeta in H. rewrite H. constructor.
    + intros _ _. eapply Forall_impl; [|apply IH].
      intros q (c & Hin & Hq). exists c. split; [now right|exact Hq].
Qed.

(** X17. Every request of a run goes to the reviews endpoint, asks for one
    of the companies typed in and carries the token typed in, stripped;
    [main] sends no other request. *)
Theorem main_requests_only_for_companies (today : date) (fuel : nat)
        (st : state) :
  Forall (fun q => exists company,
              In company (parse_companies (nth 0 (stdin st) EmptyString))
              /\ request_for company
                             (PyStr.strip (nth 1 (stdin st) EmptyString)) q)
         (requests (trace (main today fuel st))).
Proof.
  destruct (Nat.lt_ge_cases (List.length (stdin st)) 4) as [Hlt|Hge].
  { rewrite (end_of_input_lemma today fuel st Hlt).
    destruct (stdin st) as [|l1 [|l2 [|l3 [|l4 rest]]]]; cbn; constructor. }
  destruct (stdin st) as [|l1 [|l2 [|l3 [|l4 rest]]]] eqn:Hin;
    cbn in Hge; try lia.
  rewrite (main_eq today fuel st l1 l2 l3 l4 rest Hin). cbn [nth].
  destruct (fromisoformat (PyStr.strip l3)) as [sdt|]; [|constructor].
  destruct (fromisoformat (PyStr.strip l4)) as [edt|]; [|constructor].
  assert (Hmsgs : requests (fst (validated today (Datetime.date_of sdt)
                                           (Datetime.date_of edt))) = []).
  { unfold validated.
    destruct (Date.gt (Datetime.date_of sdt) today); [reflexivity|].
    destruct (Date.gt (Datetime.date_of edt) today);
      now destruct (Date.gt (Datetime.date_of sdt) _). }
  destruct (validated today (Datetime.date_of sdt) (Datetime.date_of edt))
    as [msgs [[s e]|]]; cbn [fst] in Hmsgs; cbn [trace].
  - rewrite !requests_app, Hmsgs. cbn [app requests prompts].
    unfold bind.
    pose proof (for_companies_requests fuel (PyStr.strip l2)
                  (Date.isoformat s) (Date.isoformat e) (parse_companies l1)
                  (mkState (world st) rest)) as H.
    destruct (res (for_companies fuel (PyStr.strip l2) (Date.isoformat s)
                     (Date.isoformat e) (parse_companies l1)
                     (mkState (world st) rest))); cbn [trace]; auto.
    unfold print. cbn [trace]. now rewrite requests_app, app_nil_r.
  - rewrite requests_app, Hmsgs. constructor.
Qed.

End Requests.

(** ** The last day of the window *)

Lemma datetime_not_le_lt (a b : datetime) :
  Datetime.le a b = Some false -> Datetime.lt b a = Some true.
Proof.
  unfold Datetime.lt, Datetime.le, Datetime.cmp.
  destruct (tzinfo a) as [oa|], (tzinfo b) as [ob|]; cbn; try discriminate.
  - rewrite (Z.eqb_sym ob oa). destruct (oa =? ob); cbn.
    + rewrite (lex_compare_opp (Datetime.key a) (Datetime.key b)).
      destruct (lex_compare (Datetime.key a) (Datetime.key b)); cbn; congruence.
    + rewrite (Z.compare_antisym (Datetime.utc_micros a oa)).
      destruct (Datetime.utc_micros a oa ?= Datetime.utc_micros b ob); cbn;
        congruence.
  - rewrite (lex_compare_opp (Datetime.key a) (Datetime.key b)).
    destruct (lex_compare (Datetime.key a) (Datetime.key b)); cbn; congruence.
Qed.

Section LastDay.

Context {P : Platform}.

(** X16. With the bounds [main] passes on, the midnights of the start day
    and of the end day, a review written on the end day at any time after
    midnight is neither kept nor a reason to stop: the loop body leaves the
    accumulator as it is and goes on to the next review.  Of the end day
    only a review stamped 00:00:00 can be kept. *)
Theorem end_day_review_is_passed_over (company : string)
        (start_day : date) (acc : list review) (r : json) (t : datetime) :
  try_isoparse r = Some t ->
  Datetime.naive t ->
  Date.gt start_day (Datetime.date_of t) = false ->
  0 <= hour t -> 0 <= minute t -> 0 <= second t -> 0 <= microsecond t ->
  0 < hour t + minute t + second t + microsecond t ->
  for_body company (Datetime.midnight start_day)
           (Datetime.midnight (Datetime.date_of t)) acc r
  = Next acc.
Proof.
  intros Hparse Hn Hwin Hh Hm Hs Hu Hpos.
  pose proof (after_own_midnight t Hn Hh Hm Hs Hu Hpos) as Hhi.
  destruct (midnight_window start_day (Datetime.date_of t) Hwin)
    as (Hns & Hne & Hle).
  pose proof (datetime_not_le_lt _ _ Hhi) as Hafter.
  destruct (datetime_naive_le_lt _ _ _ Hns Hne Hle Hafter) as [Hlt _].
  unfold for_body. rewrite Hparse.
  rewrite (datetime_lt_le _ _ Hlt), Hhi.
  apply datetime_lt_flip in Hlt.
  assert (E : Datetime.lt t (Datetime.midnight start_day) = Some false).
  { revert Hlt. unfold Datetime.lt, Datetime.le.
    destruct (Datetime.cmp t (Datetime.midnight start_day)) as [[]|]; cbn;
      congruence. }
  now rewrite E.
Qed.

End LastDay.

Lemma end_day_review_is_passed_over_witness :
  @for_body (Reference.platform Scenario.last_day_server) "notion"
            Scenario.window_start Scenario.window_end
            [Scenario.kept_inside] Scenario.last_day
  = Next [Scenario.kept_inside].
Proof.
  apply (@end_day_review_is_passed_over
           (Reference.platform Scenario.last_day_server) "notion"
           (mkDate 2024 6 1) [Scenario.kept_inside] Scenario.last_day
           (mkDatetime 2024 6 8 10 30 0 0 None));
    try reflexivity; cbn; lia.
Defined.

(** ** Whitespace beyond ASCII *)

(** A run whose four lines are padded with U+00A0 and U+0085: the padding
    is stripped, so the company is [jira], the token [tok], and the dates
    parse. *)
Example padded_lines_run :
  let run := @main (Reference.platform Scenario.descending) Scenario.today 3
                   (Reference.start Scenario.descending
                      [MoreScenarios.padded_company;
                       MoreScenarios.padded_token;
                       MoreScenarios.padded_start;
                       MoreScenarios.padded_end]) in
  requests (trace run) = [mkRequest api_url "jira" "tok" 0]
  /\ written_files (trace run) = ["output/jira_g2_reviews.json"]
  /\ res run = Val tt.
Proof. cbn zeta. repeat split. Qed.

(** A slug with a slash in it: the file cannot be opened and the run ends
    there, after the request and before any later company. *)
Example refused_file_run :
  let run := @main (Reference.platform Scenario.descending) Scenario.today 3
                   (Reference.start Scenario.descending
                      (Scenario.typed "acme/eu, jira"
                                      "2024-06-01" "2024-06-08")) in
  res run = Raised OSError
  /\ requests (trace run) = [mkRequest api_url "acme/eu" "tok" 0]
  /\ opened (trace run) = []
  /\ written_files (trace run) = [].
Proof. cbn zeta. repeat split. Qed.
